(** * The Scaleway instance volume resource

    A shallow embedding of [scaleway/resource_instance_volume.go]: the four
    lifecycle functions of the [scaleway_instance_volume] resource (create,
    read, update, delete), written in a small state monad over the resource
    data [d] and the log of the remote calls issued so far.

    The remote API is the environment.  Every answer it gives may depend on
    the whole history of calls, so the theorems below hold for every
    deterministic remote system. *)

From Stdlib Require Import ZArith Ascii String List Bool Lia.
Import ListNotations.

Local Open Scope string_scope.
Local Open Scope list_scope.
Local Open Scope Z_scope.

(** ** Errors and diagnostics *)

(** A Go [error] value: the dynamic types the resource meets. *)
#[warnings="-register-all"] Inductive error : Type :=
| errorString (msg : string)
    (* errors.New, fmt.Errorf *)
| ResponseError (StatusCode : Z) (Message : string)
    (* an error answered by the remote API *)
| TimeoutError (LastError : option error).
    (* resource.TimeoutError *)

(** [err.Error()].  The text of a remote error is its message; a fixed text
    stands for the one of the timeout error of the SDK. *)
Fixpoint Error (e : error) : string :=
  match e with
  | errorString msg => msg
  | ResponseError _ msg => msg
  | TimeoutError None => "timeout while waiting"
  | TimeoutError (Some last) => ("timeout while waiting: " ++ Error last)%string
  end.

(** [fmt.Errorf(prefix + "%s", err)] and [fmt.Errorf(prefix + "%v", err)]. *)
Definition Errorf (prefix : string) (err : error) : error :=
  errorString (prefix ++ Error err)%string.

(** A Go pair [(res, err)] of which exactly one side is meaningful. *)
Inductive result (A : Type) : Type :=
| Ok (res : A)
| Err (err : error).
Arguments Ok {A} res.
Arguments Err {A} err.

Inductive Severity : Type := SeverityError | SeverityWarning.

Module Diagnostic.
Record t : Type := mk { Severity_ : Severity; Summary : string }.
End Diagnostic.

(** [diag.Diagnostics]; the Go [nil] is the empty list. *)
Definition Diagnostics : Type := list Diagnostic.t.

(** [diag.FromErr] on an error that is not nil. *)
Definition FromErr (err : error) : Diagnostics :=
  [ Diagnostic.mk SeverityError (Error err) ].

Definition HasError (diags : Diagnostics) : bool :=
  existsb (fun x => match Diagnostic.Severity_ x with
                    | SeverityError => true
                    | SeverityWarning => false
                    end) diags.

(** Modelled from the spec: [is404Error], a helper of the package that is not
    in this file.  "If the remote system reports not-found": the remote
    error carries the status code 404. *)
Definition is404Error (err : error) : bool :=
  match err with
  | ResponseError code _ => code =? 404
  | _ => false
  end.

(** ** Machine integers *)

(** [uint64(x)] for a Go [int] [x]. *)
Definition uint64 (x : Z) : Z := x mod 2 ^ 64.

(** Multiplication of two [uint64]. *)
Definition mul64 (x y : Z) : Z := (x * y) mod 2 ^ 64.

(** [int(x)] for a [uint64] [x] (a 64-bit [int]). *)
Definition int (x : Z) : Z := (x + 2 ^ 63) mod 2 ^ 64 - 2 ^ 63.

(** Modelled from the spec: the package constant [gb], which is not in this
    file.  "Size, when given, is converted from gigabytes to bytes (factor
    2^30)". *)
Definition gb : Z := 2 ^ 30.

(** Modelled from the spec: [scw.GB], the same unit on the side of the SDK
    ("size-in-GB rounded down"). *)
Definition scw_GB : Z := 2 ^ 30.

(** ** The remote API: requests, responses, calls *)

Definition Zone : Type := string.

Module Context.
(** [context.Context]: all that matters here is whether it is cancelled. *)
Record t : Type := mk { name : string; cancelled : bool }.
End Context.

(** [scw.RequestOption] *)
Inductive RequestOption : Type :=
| WithContext (ctx : Context.t).

Module ServerSummary.
Record t : Type := mk { ID : string; Name : string }.
End ServerSummary.

(** [instance.VolumeVolumeType] is a string type. *)
Definition VolumeVolumeType : Type := string.
Definition VolumeVolumeTypeLSSD : VolumeVolumeType := "l_ssd".
Definition VolumeVolumeTypeBSSD : VolumeVolumeType := "b_ssd".

Module Volume.
Record t : Type := mk {
  ID : string;
  Name : string;
  Organization : string;
  Project : string;
  VolumeType_ : VolumeVolumeType;
  Size : Z;                          (* scw.Size, a uint64 *)
  Server : option ServerSummary.t
}.
End Volume.

Module CreateVolumeRequest.
Record t : Type := mk {
  Zone_ : Zone;
  Name : string;
  VolumeType_ : VolumeVolumeType;
  Project : option string;
  Size : option Z;
  BaseVolume : option string;
  BaseSnapshot : option string
}.
End CreateVolumeRequest.

Module CreateVolumeResponse.
Record t : Type := mk { Volume_ : Volume.t }.
End CreateVolumeResponse.

Module GetVolumeRequest.
Record t : Type := mk { Zone_ : Zone; VolumeID : string }.
End GetVolumeRequest.

Module GetVolumeResponse.
Record t : Type := mk { Volume_ : Volume.t }.
End GetVolumeResponse.

Module UpdateVolumeRequest.
Record t : Type := mk {
  Zone_ : Zone;
  VolumeID : string;
  Name : option string;
  Size : option Z
}.
End UpdateVolumeRequest.

Module UpdateVolumeResponse.
Record t : Type := mk { Volume_ : Volume.t }.
End UpdateVolumeResponse.

Module DeleteVolumeRequest.
Record t : Type := mk { Zone_ : Zone; VolumeID : string }.
End DeleteVolumeRequest.

Module WaitForVolumeRequest.
Record t : Type := mk {
  VolumeID : string;
  Zone_ : Zone;
  RetryInterval : option Z           (* *time.Duration *)
}.
End WaitForVolumeRequest.

(** One remote call with the answer it got. *)
Inductive Event : Type :=
| CreateVolumeCall (req : CreateVolumeRequest.t) (opts : list RequestOption)
                   (res : result CreateVolumeResponse.t)
| GetVolumeCall (req : GetVolumeRequest.t) (opts : list RequestOption)
                (res : result GetVolumeResponse.t)
| UpdateVolumeCall (req : UpdateVolumeRequest.t) (opts : list RequestOption)
                   (res : result UpdateVolumeResponse.t)
| DeleteVolumeCall (req : DeleteVolumeRequest.t) (opts : list RequestOption)
                   (res : option error)
| WaitForVolumeCall (req : WaitForVolumeRequest.t) (opts : list RequestOption)
                    (res : result Volume.t).

(** [*instance.API]: what the remote system answers to a call, given the calls
    answered before it. *)
Module API.
Record t : Type := mk {
  CreateVolume : list Event -> CreateVolumeRequest.t -> list RequestOption ->
                 result CreateVolumeResponse.t;
  GetVolume : list Event -> GetVolumeRequest.t -> list RequestOption ->
              result GetVolumeResponse.t;
  UpdateVolume : list Event -> UpdateVolumeRequest.t -> list RequestOption ->
                 result UpdateVolumeResponse.t;
  DeleteVolume : list Event -> DeleteVolumeRequest.t -> list RequestOption ->
                 option error;
  WaitForVolume : list Event -> WaitForVolumeRequest.t -> list RequestOption ->
                  result Volume.t
}.
End API.

(** ** The resource data *)

(** The attributes of the schema, with the Go zero value for an attribute that
    is not set. *)
Module Attrs.
Record t : Type := mk {
  name : string;
  type : string;
  size_in_gb : Z;
  from_volume_id : string;
  from_snapshot_id : string;
  server_id : string;
  organization_id : string;
  project_id : string;
  zone : string
}.

Definition set_name (v : string) (a : t) : t :=
  mk v (type a) (size_in_gb a) (from_volume_id a) (from_snapshot_id a)
     (server_id a) (organization_id a) (project_id a) (zone a).
Definition set_type (v : string) (a : t) : t :=
  mk (name a) v (size_in_gb a) (from_volume_id a) (from_snapshot_id a)
     (server_id a) (organization_id a) (project_id a) (zone a).
Definition set_size_in_gb (v : Z) (a : t) : t :=
  mk (name a) (type a) v (from_volume_id a) (from_snapshot_id a)
     (server_id a) (organization_id a) (project_id a) (zone a).
Definition set_server_id (v : string) (a : t) : t :=
  mk (name a) (type a) (size_in_gb a) (from_volume_id a) (from_snapshot_id a)
     v (organization_id a) (project_id a) (zone a).
Definition set_organization_id (v : string) (a : t) : t :=
  mk (name a) (type a) (size_in_gb a) (from_volume_id a) (from_snapshot_id a)
     (server_id a) v (project_id a) (zone a).
Definition set_project_id (v : string) (a : t) : t :=
  mk (name a) (type a) (size_in_gb a) (from_volume_id a) (from_snapshot_id a)
     (server_id a) (organization_id a) v (zone a).
Definition set_zone (v : string) (a : t) : t :=
  mk (name a) (type a) (size_in_gb a) (from_volume_id a) (from_snapshot_id a)
     (server_id a) (organization_id a) (project_id a) v.
End Attrs.

(** [*schema.ResourceData].  [state] is the prior state, the old side of
    [GetChange]; [planned] is what [Get] reads and [Set] writes (this file
    calls neither [HasChange] nor [GetChange] after a [Set]).  [TimeoutDelete]
    is the deadline of [d.Timeout(schema.TimeoutDelete)], counted in polling
    rounds of the retry helper. *)
Module ResourceData.
Record t : Type := mk {
  Id : string;
  state : Attrs.t;
  planned : Attrs.t;
  TimeoutDelete : nat
}.

Definition SetId (v : string) (d : t) : t :=
  mk v (state d) (planned d) (TimeoutDelete d).

Definition Set_ (f : Attrs.t -> Attrs.t) (d : t) : t :=
  mk (Id d) (state d) (f (planned d)) (TimeoutDelete d).

Definition Get {A : Type} (key : Attrs.t -> A) (d : t) : A := key (planned d).

(** [GetOk]: the value, and whether it is set to a non-zero value. *)
Definition GetOkString (key : Attrs.t -> string) (d : t) : string * bool :=
  (key (planned d), negb (String.eqb (key (planned d)) "")).

Definition GetOkInt (key : Attrs.t -> Z) (d : t) : Z * bool :=
  (key (planned d), negb (key (planned d) =? 0)).

Definition GetChange {A : Type} (key : Attrs.t -> A) (d : t) : A * A :=
  (key (state d), key (planned d)).

Definition HasChangeString (key : Attrs.t -> string) (d : t) : bool :=
  negb (String.eqb (key (state d)) (key (planned d))).

Definition HasChangeInt (key : Attrs.t -> Z) (d : t) : bool :=
  negb (key (state d) =? key (planned d)).
End ResourceData.

(** ** The monad of a function body *)

(** What a run reads and writes: the resource data behind the pointer [d], and
    the remote calls issued so far, oldest first. *)
Module State.
Record t : Type := mk { d : ResourceData.t; trace : list Event }.
End State.

(** A piece of the body of a Go function that returns an [R]: it either has
    executed a [return] ([inl]) or goes on with a value ([inr]). *)
Definition Fn (R A : Type) : Type := State.t -> (R + A) * State.t.

Definition ret {R A : Type} (a : A) : Fn R A := fun s => (inr a, s).

Definition Return {R A : Type} (r : R) : Fn R A := fun s => (inl r, s).

Definition bind {R A B : Type} (m : Fn R A) (k : A -> Fn R B) : Fn R B :=
  fun s =>
    match m s with
    | (inl r, s') => (inl r, s')
    | (inr a, s') => k a s'
    end.

Declare Scope fn_scope.
Delimit Scope fn_scope with fn.
Notation "x <- m ;; k" := (bind m (fun x => k))
  (at level 61, m at next level, right associativity) : fn_scope.
Notation "m ;; k" := (bind m (fun _ => k))
  (at level 61, right associativity) : fn_scope.
Local Open Scope fn_scope.

(** Running a whole function: its result and the state it leaves. *)
Definition exec {R : Type} (body : Fn R R) (s : State.t) : R * State.t :=
  match body s with
  | (inl r, s') => (r, s')
  | (inr r, s') => (r, s')
  end.

(** Calling a function from the body of another one. *)
Definition call {R R' : Type} (body : Fn R R) : Fn R' R :=
  fun s => let (r, s') := exec body s in (inr r, s').

Definition getData {R : Type} : Fn R ResourceData.t :=
  fun s => (inr (State.d s), s).

Definition modifyData {R : Type} (f : ResourceData.t -> ResourceData.t) : Fn R unit :=
  fun s => (inr tt, State.mk (f (State.d s)) (State.trace s)).

(** A remote call: ask the environment, log the call with its answer. *)
Definition remote {R A : Type} (answer : list Event -> A) (ev : A -> Event) : Fn R A :=
  fun s =>
    let a := answer (State.trace s) in
    (inr a, State.mk (State.d s) (State.trace s ++ [ev a])).

Definition CreateVolume {R : Type} (api : API.t) req opts
  : Fn R (result CreateVolumeResponse.t) :=
  remote (fun h => API.CreateVolume api h req opts) (CreateVolumeCall req opts).

Definition GetVolume {R : Type} (api : API.t) req opts
  : Fn R (result GetVolumeResponse.t) :=
  remote (fun h => API.GetVolume api h req opts) (GetVolumeCall req opts).

Definition UpdateVolume {R : Type} (api : API.t) req opts
  : Fn R (result UpdateVolumeResponse.t) :=
  remote (fun h => API.UpdateVolume api h req opts) (UpdateVolumeCall req opts).

Definition DeleteVolume {R : Type} (api : API.t) req opts : Fn R (option error) :=
  remote (fun h => API.DeleteVolume api h req opts) (DeleteVolumeCall req opts).

Definition WaitForVolume {R : Type} (api : API.t) req opts : Fn R (result Volume.t) :=
  remote (fun h => API.WaitForVolume api h req opts) (WaitForVolumeCall req opts).

(** The calls issued between two states of one run. *)
Definition calls (s s' : State.t) : list Event :=
  skipn (length (State.trace s)) (State.trace s').

(** ** Helpers of the package *)

(** Modelled from the spec: [newZonedIDString], a helper of the package that
    is not in this file.  "A single string encoding {zone}/{remote-volume-id}". *)
Definition newZonedIDString (zone : Zone) (id : string) : string :=
  (zone ++ "/" ++ id)%string.

(** Modelled from the spec: [expandStringPtr], a helper of the package that is
    not in this file.  An optional field is sent "if present": the empty
    string gives the nil pointer. *)
Definition expandStringPtr (data : string) : option string :=
  if String.eqb data "" then None else Some data.

(** [resource.RetryError] with its two constructors. *)
Module RetryError.
Record t : Type := mk { Err_ : error; Retryable : bool }.
End RetryError.

Definition RetryableError (err : error) : RetryError.t := RetryError.mk err true.
Definition NonRetryableError (err : error) : RetryError.t := RetryError.mk err false.

(** Modelled from the spec: the polling loop of [resource.Retry], which is not
    in this file.  [rounds] is what is left of the deadline and [last] the
    error of the latest round; when no round is left the loop gives the
    timeout error. *)
Fixpoint retryRounds {R : Type} (rounds : nat) (last : option error)
    (f : Fn (option RetryError.t) (option RetryError.t)) : Fn R (option error) :=
  match rounds with
  | O => ret (Some (TimeoutError last))
  | S rounds' =>
      rerr <- call f ;;
      match rerr with
      | None => ret None
      | Some e =>
          if RetryError.Retryable e
          then retryRounds rounds' (Some (RetryError.Err_ e)) f
          else ret (Some (RetryError.Err_ e))
      end
  end.

(** Modelled from the spec: [resource.Retry], the retry helper of the plugin
    SDK, which is not in this file.  It polls [f] within a bounded overall
    deadline: a nil result ends the loop with success, an error that is not
    retryable "is fatal and aborts the loop immediately", a retryable one
    waits and polls again, and "a bounded retry loop that exhausts its deadline
    without success" gives a timeout error.  The deadline is counted in
    polling rounds. *)
Definition Retry {R : Type} (timeout : nat)
    (f : Fn (option RetryError.t) (option RetryError.t)) : Fn R (option error) :=
  retryRounds timeout None f.

(** ** The four lifecycle functions *)

Section Resource.

(** The provider's [meta] is opaque to this file; the two helpers below give
    the API handle, the zone and the volume id out of it.  They, the random
    name of [expandOrGenerateString], [expandID] and the package variable
    [DefaultWaitRetryInterval] are not in this file and are left open. *)
Variable Meta : Type.
Variable instanceAPIWithZone : ResourceData.t -> Meta -> result (API.t * Zone).
Variable instanceAPIWithZoneAndID : Meta -> string -> result (API.t * Zone * string).
Variable newRandomName : string -> string.
Variable expandID : string -> string.
Variable DefaultWaitRetryInterval : option Z.

(** Modelled from the spec: [expandOrGenerateString], a helper of the package
    that is not in this file.  The "generated-or-given name": the given
    string when there is one, a generated name with the prefix otherwise. *)
Definition expandOrGenerateString (data : string) (prefix : string) : string :=
  if String.eqb data "" then newRandomName prefix else data.

Definition resourceScalewayInstanceVolumeRead (ctx : Context.t) (meta : Meta)
  : Fn Diagnostics Diagnostics :=
  d <- getData ;;
  match instanceAPIWithZoneAndID meta (ResourceData.Id d) with
  | Err err => Return (FromErr err)
  | Ok (instanceAPI, zone, id) =>
      res <- GetVolume instanceAPI (GetVolumeRequest.mk zone id) [WithContext ctx] ;;
      match res with
      | Err err =>
          if is404Error err then
            modifyData (ResourceData.SetId "") ;;
            Return []
          else
            Return (FromErr (Errorf "couldn't read volume: " err))
      | Ok res =>
          let volume := GetVolumeResponse.Volume_ res in
          modifyData (ResourceData.Set_ (Attrs.set_name (Volume.Name volume))) ;;
          modifyData (ResourceData.Set_ (Attrs.set_organization_id (Volume.Organization volume))) ;;
          modifyData (ResourceData.Set_ (Attrs.set_project_id (Volume.Project volume))) ;;
          modifyData (ResourceData.Set_ (Attrs.set_zone zone)) ;;
          modifyData (ResourceData.Set_ (Attrs.set_type (Volume.VolumeType_ volume))) ;;
          modifyData (ResourceData.Set_
                        (Attrs.set_size_in_gb (int (Volume.Size volume / scw_GB)))) ;;
          match Volume.Server volume with
          | Some server =>
              modifyData (ResourceData.Set_ (Attrs.set_server_id (ServerSummary.ID server)))
          | None =>
              modifyData (ResourceData.Set_ (Attrs.set_server_id ""))
          end ;;
          Return []
      end
  end.

(** The request that the create builds out of the resource data. *)
Definition createVolumeRequest (zone : Zone) (d : ResourceData.t)
  : CreateVolumeRequest.t :=
  CreateVolumeRequest.mk
    zone
    (expandOrGenerateString (ResourceData.Get Attrs.name d) "vol")
    (ResourceData.Get Attrs.type d)
    (expandStringPtr (ResourceData.Get Attrs.project_id d))
    (let (size, ok) := ResourceData.GetOkInt Attrs.size_in_gb d in
     if ok then Some (mul64 (uint64 size) gb) else None)
    (let (volumeID, ok) := ResourceData.GetOkString Attrs.from_volume_id d in
     if ok then expandStringPtr (expandID volumeID) else None)
    (let (snapshotID, ok) := ResourceData.GetOkString Attrs.from_snapshot_id d in
     if ok then expandStringPtr (expandID snapshotID) else None).

Definition resourceScalewayInstanceVolumeCreate (ctx : Context.t) (meta : Meta)
  : Fn Diagnostics Diagnostics :=
  d <- getData ;;
  match instanceAPIWithZone d meta with
  | Err err => Return (FromErr err)
  | Ok (instanceAPI, zone) =>
      res <- CreateVolume instanceAPI (createVolumeRequest zone d) [WithContext ctx] ;;
      match res with
      | Err err => Return (FromErr (Errorf "couldn't create volume: " err))
      | Ok res =>
          modifyData (ResourceData.SetId
                        (newZonedIDString zone
                           (Volume.ID (CreateVolumeResponse.Volume_ res)))) ;;
          call (resourceScalewayInstanceVolumeRead ctx meta)
      end
  end.

Definition resourceScalewayInstanceVolumeUpdate (ctx : Context.t) (meta : Meta)
  : Fn Diagnostics Diagnostics :=
  d <- getData ;;
  match instanceAPIWithZoneAndID meta (ResourceData.Id d) with
  | Err err => Return (FromErr err)
  | Ok (instanceAPI, zone, id) =>
      (if ResourceData.HasChangeString Attrs.name d then
         let newName := ResourceData.Get Attrs.name d in
         res <- UpdateVolume instanceAPI
                  (UpdateVolumeRequest.mk zone id (Some newName) None)
                  [WithContext ctx] ;;
         match res with
         | Err err => Return (FromErr (Errorf "couldn't update volume: " err))
         | Ok _ => ret tt
         end
       else ret tt) ;;
      (if ResourceData.HasChangeInt Attrs.size_in_gb d then
         if negb (String.eqb (ResourceData.Get Attrs.type d) VolumeVolumeTypeBSSD) then
           Return (FromErr (errorString "only block volume can be resized"))
         else
         let (oldSize, newSize) := ResourceData.GetChange Attrs.size_in_gb d in
         if oldSize >? newSize then
           Return (FromErr (errorString "block volumes cannot be resized down"))
         else
         res <- WaitForVolume instanceAPI
                  (WaitForVolumeRequest.mk id zone DefaultWaitRetryInterval)
                  [WithContext ctx] ;;
         match res with
         | Err err => Return (FromErr err)
         | Ok _ =>
         let volumeSizeInBytes := mul64 (uint64 (ResourceData.Get Attrs.size_in_gb d)) gb in
         res <- UpdateVolume instanceAPI
                  (UpdateVolumeRequest.mk zone id None (Some volumeSizeInBytes))
                  [WithContext ctx] ;;
         match res with
         | Err err => Return (FromErr (Errorf "couldn't resize volume: " err))
         | Ok _ =>
         res <- WaitForVolume instanceAPI
                  (WaitForVolumeRequest.mk id zone DefaultWaitRetryInterval)
                  [WithContext ctx] ;;
         match res with
         | Err err => Return (FromErr err)
         | Ok _ => ret tt
         end end end
       else ret tt) ;;
      call (resourceScalewayInstanceVolumeRead ctx meta)
  end.

(** The function handed to [resource.Retry] by the delete: one polling round. *)
Definition deleteAttempt (ctx : Context.t) (instanceAPI : API.t) (zone : Zone)
    (id : string) : Fn (option RetryError.t) (option RetryError.t) :=
  volumeResp <- GetVolume instanceAPI (GetVolumeRequest.mk zone id) [] ;;
  match volumeResp with
  | Err err =>
      if is404Error err then Return None
      else Return (Some (NonRetryableError err))
  | Ok volumeResp =>
      match Volume.Server (GetVolumeResponse.Volume_ volumeResp) with
      | Some _ =>
          Return (Some (RetryableError
                          (errorString "volume is still attached to a server")))
      | None =>
          let deleteRequest := DeleteVolumeRequest.mk zone id in
          err <- DeleteVolume instanceAPI deleteRequest [WithContext ctx] ;;
          match err with
          | Some err => Return (Some (NonRetryableError err))
          | None => Return None
          end
      end
  end.

Definition resourceScalewayInstanceVolumeDelete (ctx : Context.t) (meta : Meta)
  : Fn Diagnostics Diagnostics :=
  d <- getData ;;
  match instanceAPIWithZoneAndID meta (ResourceData.Id d) with
  | Err err => Return (FromErr err)
  | Ok (instanceAPI, zone, id) =>
      err <- Retry (ResourceData.TimeoutDelete d)
               (deleteAttempt ctx instanceAPI zone id) ;;
      match err with
      | Some err => Return (FromErr err)
      | None => Return []
      end
  end.

End Resource.

(** ** Shapes of runs *)

(** The retryable error of a polling round that finds the volume attached. *)
Definition stillAttached : error :=
  errorString "volume is still attached to a server".

(** A run of the polling loop of the delete, as the sequence of calls it
    issues and the error it ends with: [rounds] polling rounds are left and
    [last] is the error of the latest round. *)
Inductive DeleteRun (ctx : Context.t) (zone : Zone) (id : string)
  : nat -> option error -> list Event -> option error -> Prop :=
| DeleteRun_deadline last :
    DeleteRun ctx zone id O last [] (Some (TimeoutError last))
| DeleteRun_gone rounds last err :
    is404Error err = true ->
    DeleteRun ctx zone id (S rounds) last
      [GetVolumeCall (GetVolumeRequest.mk zone id) [] (Err err)] None
| DeleteRun_fatal rounds last err :
    is404Error err = false ->
    DeleteRun ctx zone id (S rounds) last
      [GetVolumeCall (GetVolumeRequest.mk zone id) [] (Err err)] (Some err)
| DeleteRun_delete rounds last resp res :
    Volume.Server (GetVolumeResponse.Volume_ resp) = None ->
    DeleteRun ctx zone id (S rounds) last
      [GetVolumeCall (GetVolumeRequest.mk zone id) [] (Ok resp);
       DeleteVolumeCall (DeleteVolumeRequest.mk zone id) [WithContext ctx] res] res
| DeleteRun_retry rounds last resp server evs res :
    Volume.Server (GetVolumeResponse.Volume_ resp) = Some server ->
    DeleteRun ctx zone id rounds (Some stillAttached) evs res ->
    DeleteRun ctx zone id (S rounds) last
      (GetVolumeCall (GetVolumeRequest.mk zone id) [] (Ok resp) :: evs) res.

(** A fetch that shows the volume attached to a server. *)
Definition showsAttached (ev : Event) : bool :=
  match ev with
  | GetVolumeCall _ _ (Ok resp) =>
      match Volume.Server (GetVolumeResponse.Volume_ resp) with
      | Some _ => true
      | None => false
      end
  | _ => false
  end.

Definition isDeleteVolume (ev : Event) : bool :=
  match ev with
  | DeleteVolumeCall _ _ _ => true
  | _ => false
  end.

Definition isWaitForVolume (ev : Event) : bool :=
  match ev with
  | WaitForVolumeCall _ _ _ => true
  | _ => false
  end.

(** The resize request: an update that carries a size. *)
Definition isResize (ev : Event) : bool :=
  match ev with
  | UpdateVolumeCall req _ _ =>
      match UpdateVolumeRequest.Size req with
      | Some _ => true
      | None => false
      end
  | _ => false
  end.

(** The calls of the size path of the update: the waits and the resize. *)
Definition isResizeRelated (ev : Event) : bool :=
  isWaitForVolume ev || isResize ev.

(** The observed attributes of a volume, as the spec lists them for a read:
    "name, org, project, zone, type, size-in-GB rounded down, attached server
    id or empty"; the other attributes stay. *)
Definition observed (zone : Zone) (volume : Volume.t) (a : Attrs.t) : Attrs.t :=
  Attrs.mk (Volume.Name volume)
           (Volume.VolumeType_ volume)
           (int (Volume.Size volume / scw_GB))
           (Attrs.from_volume_id a)
           (Attrs.from_snapshot_id a)
           (match Volume.Server volume with
            | Some server => ServerSummary.ID server
            | None => ""
            end)
           (Volume.Organization volume)
           (Volume.Project volume)
           zone.

(** The calls that change the remote system, and the waits. *)
Definition isMutatingOrWait (ev : Event) : bool :=
  match ev with
  | GetVolumeCall _ _ _ => false
  | _ => true
  end.

(** How the delete passes its context to a call. *)
Definition deleteCallContext (ctx : Context.t) (ev : Event) : Prop :=
  match ev with
  | GetVolumeCall _ opts _ => opts = []
  | DeleteVolumeCall _ opts _ => opts = [WithContext ctx]
  | _ => False
  end.

(** The two validation errors of the update. *)
Definition onlyBlockResized : Diagnostics :=
  FromErr (errorString "only block volume can be resized").

Definition noResizeDown : Diagnostics :=
  FromErr (errorString "block volumes cannot be resized down").

Definition ValidationError (diags : Diagnostics) : Prop :=
  diags = onlyBlockResized \/ diags = noResizeDown.

Definition isTimeoutError (diags : Diagnostics) : Prop :=
  exists last, diags = FromErr (TimeoutError last).

(** The rename request of an update. *)
Definition renameRequest (zone : Zone) (id : string) (d : ResourceData.t)
  : UpdateVolumeRequest.t :=
  UpdateVolumeRequest.mk zone id (Some (ResourceData.Get Attrs.name d)) None.

(** The validation error of a size change that is not permitted. *)
Definition sizeChangeRejected (d : ResourceData.t) : option Diagnostics :=
  if negb (String.eqb (ResourceData.Get Attrs.type d) VolumeVolumeTypeBSSD)
  then Some onlyBlockResized
  else if Attrs.size_in_gb (ResourceData.state d) >? Attrs.size_in_gb (ResourceData.planned d)
       then Some noResizeDown
       else None.

(** ** Runs of the read, the update and the create, call by call *)

Definition isGetVolume (ev : Event) : bool :=
  match ev with
  | GetVolumeCall _ _ _ => true
  | _ => false
  end.

Definition isCreateVolume (ev : Event) : bool :=
  match ev with
  | CreateVolumeCall _ _ _ => true
  | _ => false
  end.

(** The request options of a call. *)
Definition options (ev : Event) : list RequestOption :=
  match ev with
  | CreateVolumeCall _ opts _ => opts
  | GetVolumeCall _ opts _ => opts
  | UpdateVolumeCall _ opts _ => opts
  | DeleteVolumeCall _ opts _ => opts
  | WaitForVolumeCall _ opts _ => opts
  end.

(** The resize request of an update and the request of its two waits. *)
Definition resizeRequest (zone : Zone) (id : string) (d : ResourceData.t)
  : UpdateVolumeRequest.t :=
  UpdateVolumeRequest.mk zone id None
    (Some (mul64 (uint64 (ResourceData.Get Attrs.size_in_gb d)) gb)).

Definition waitRequest (interval : option Z) (zone : Zone) (id : string)
  : WaitForVolumeRequest.t :=
  WaitForVolumeRequest.mk id zone interval.

(** The read once the identifier is resolved to [zone] and [id]: the one call
    it issues, the diagnostics it returns and the resource data it leaves. *)
Inductive ReadStep (ctx : Context.t) (zone : Zone) (id : string) (d : ResourceData.t)
  : list Event -> Diagnostics -> ResourceData.t -> Prop :=
| ReadStep_found got :
    ReadStep ctx zone id d
      [GetVolumeCall (GetVolumeRequest.mk zone id) [WithContext ctx] (Ok got)]
      [] (ResourceData.Set_ (observed zone (GetVolumeResponse.Volume_ got)) d)
| ReadStep_gone err :
    is404Error err = true ->
    ReadStep ctx zone id d
      [GetVolumeCall (GetVolumeRequest.mk zone id) [WithContext ctx] (Err err)]
      [] (ResourceData.SetId "" d)
| ReadStep_failed err :
    is404Error err = false ->
    ReadStep ctx zone id d
      [GetVolumeCall (GetVolumeRequest.mk zone id) [WithContext ctx] (Err err)]
      (FromErr (Errorf "couldn't read volume: " err)) d.

(** The name block of the update: the calls of a run from this block on, the
    calls left for the blocks after it, and the diagnostics when the update
    returns in it. *)
Inductive RenameStep (ctx : Context.t) (zone : Zone) (id : string) (d : ResourceData.t)
  : list Event -> list Event -> option Diagnostics -> Prop :=
| RenameStep_same rest :
    ResourceData.HasChangeString Attrs.name d = false ->
    RenameStep ctx zone id d rest rest None
| RenameStep_done res rest :
    ResourceData.HasChangeString Attrs.name d = true ->
    RenameStep ctx zone id d
      (UpdateVolumeCall (renameRequest zone id d) [WithContext ctx] (Ok res) :: rest)
      rest None
| RenameStep_failed err :
    ResourceData.HasChangeString Attrs.name d = true ->
    RenameStep ctx zone id d
      [UpdateVolumeCall (renameRequest zone id d) [WithContext ctx] (Err err)]
      [] (Some (FromErr (Errorf "couldn't update volume: " err))).

(** The size block of the update, in the same way. *)
Inductive SizeStep (ctx : Context.t) (interval : option Z) (zone : Zone) (id : string)
    (d : ResourceData.t)
  : list Event -> list Event -> option Diagnostics -> Prop :=
| SizeStep_same rest :
    ResourceData.HasChangeInt Attrs.size_in_gb d = false ->
    SizeStep ctx interval zone id d rest rest None
| SizeStep_rejected validation :
    ResourceData.HasChangeInt Attrs.size_in_gb d = true ->
    sizeChangeRejected d = Some validation ->
    SizeStep ctx interval zone id d [] [] (Some validation)
| SizeStep_unstable err :
    ResourceData.HasChangeInt Attrs.size_in_gb d = true ->
    sizeChangeRejected d = None ->
    SizeStep ctx interval zone id d
      [WaitForVolumeCall (waitRequest interval zone id) [WithContext ctx] (Err err)]
      [] (Some (FromErr err))
| SizeStep_refused v err :
    ResourceData.HasChangeInt Attrs.size_in_gb d = true ->
    sizeChangeRejected d = None ->
    SizeStep ctx interval zone id d
      [WaitForVolumeCall (waitRequest interval zone id) [WithContext ctx] (Ok v);
       UpdateVolumeCall (resizeRequest zone id d) [WithContext ctx] (Err err)]
      [] (Some (FromErr (Errorf "couldn't resize volume: " err)))
| SizeStep_unsettled v res err :
    ResourceData.HasChangeInt Attrs.size_in_gb d = true ->
    sizeChangeRejected d = None ->
    SizeStep ctx interval zone id d
      [WaitForVolumeCall (waitRequest interval zone id) [WithContext ctx] (Ok v);
       UpdateVolumeCall (resizeRequest zone id d) [WithContext ctx] (Ok res);
       WaitForVolumeCall (waitRequest interval zone id) [WithContext ctx] (Err err)]
      [] (Some (FromErr err))
| SizeStep_done v res v' rest :
    ResourceData.HasChangeInt Attrs.size_in_gb d = true ->
    sizeChangeRejected d = None ->
    SizeStep ctx interval zone id d
      (WaitForVolumeCall (waitRequest interval zone id) [WithContext ctx] (Ok v)
       :: UpdateVolumeCall (resizeRequest zone id d) [WithContext ctx] (Ok res)
       :: WaitForVolumeCall (waitRequest interval zone id) [WithContext ctx] (Ok v')
       :: rest)
      rest None.

(** A run of the update once the identifier is resolved: its calls, its
    diagnostics and the resource data it leaves. *)
Inductive UpdateRun (ctx : Context.t) (interval : option Z) (zone : Zone) (id : string)
    (d : ResourceData.t)
  : list Event -> Diagnostics -> ResourceData.t -> Prop :=
| UpdateRun_name evs diags :
    RenameStep ctx zone id d evs [] (Some diags) ->
    UpdateRun ctx interval zone id d evs diags d
| UpdateRun_size evs rest diags :
    RenameStep ctx zone id d evs rest None ->
    SizeStep ctx interval zone id d rest [] (Some diags) ->
    UpdateRun ctx interval zone id d evs diags d
| UpdateRun_read evs rest rest' diags d' :
    RenameStep ctx zone id d evs rest None ->
    SizeStep ctx interval zone id d rest rest' None ->
    ReadStep ctx zone id d rest' diags d' ->
    UpdateRun ctx interval zone id d evs diags d'.

(** A run of the create once the zone is resolved: [resolve] is the helper
    that the read applies to the new identifier. *)
Inductive CreateRun (ctx : Context.t)
    (resolve : string -> result (API.t * Zone * string))
    (req : CreateVolumeRequest.t) (zone : Zone) (d : ResourceData.t)
  : list Event -> Diagnostics -> ResourceData.t -> Prop :=
| CreateRun_failed err :
    CreateRun ctx resolve req zone d
      [CreateVolumeCall req [WithContext ctx] (Err err)]
      (FromErr (Errorf "couldn't create volume: " err)) d
| CreateRun_unresolved res err :
    resolve (newZonedIDString zone (Volume.ID (CreateVolumeResponse.Volume_ res)))
      = Err err ->
    CreateRun ctx resolve req zone d
      [CreateVolumeCall req [WithContext ctx] (Ok res)]
      (FromErr err)
      (ResourceData.SetId
         (newZonedIDString zone (Volume.ID (CreateVolumeResponse.Volume_ res))) d)
| CreateRun_read res api zone' id' rest diags d' :
    resolve (newZonedIDString zone (Volume.ID (CreateVolumeResponse.Volume_ res)))
      = Ok (api, zone', id') ->
    ReadStep ctx zone' id'
      (ResourceData.SetId
         (newZonedIDString zone (Volume.ID (CreateVolumeResponse.Volume_ res))) d)
      rest diags d' ->
    CreateRun ctx resolve req zone d
      (CreateVolumeCall req [WithContext ctx] (Ok res) :: rest) diags d'.

(** ** The schema of the resource *)

(** [schema.ValueType], as far as this resource uses it. *)
Inductive ValueType : Type := TypeString | TypeInt.

(** [schema.Schema]: a field that the source leaves out has its zero value. *)
Module Schema.
Record t : Type := mk {
  Type_ : ValueType;
  Optional : bool;
  Required : bool;
  Computed : bool;
  ForceNew : bool;
  Description : string;
  ValidateFunc : option (string -> bool);
  ConflictsWith : list string
}.
End Schema.

(** [schema.ResourceImporter] with its one state function. *)
Inductive ResourceImporter : Type := ImportStatePassthroughContext.

(** [schema.ResourceTimeout] *)
Module ResourceTimeout.
Record t : Type := mk { Default : option nat }.
End ResourceTimeout.

(** [schema.Resource] *)
Module Resource.
Record t (Meta : Type) : Type := mk {
  CreateContext : Context.t -> Meta -> Fn Diagnostics Diagnostics;
  ReadContext : Context.t -> Meta -> Fn Diagnostics Diagnostics;
  UpdateContext : Context.t -> Meta -> Fn Diagnostics Diagnostics;
  DeleteContext : Context.t -> Meta -> Fn Diagnostics Diagnostics;
  Importer : ResourceImporter;
  Timeouts : ResourceTimeout.t;
  Schema_ : list (string * Schema.t)
}.
Arguments Schema_ {Meta} _.
End Resource.

Section ResourceSchema.

(** What the schema takes from outside this file: the helpers of the four
    functions, the schemas of the three placement attributes, the two
    validation functions and the default deadline. *)
Variable Meta : Type.
Variable instanceAPIWithZone : ResourceData.t -> Meta -> result (API.t * Zone).
Variable instanceAPIWithZoneAndID : Meta -> string -> result (API.t * Zone * string).
Variable newRandomName : string -> string.
Variable expandID : string -> string.
Variable DefaultWaitRetryInterval : option Z.
Variable organizationIDSchema projectIDSchema zoneSchema : Schema.t.
Variable StringInSlice : list string -> bool -> string -> bool.
Variable validationUUIDorUUIDWithLocality : string -> bool.
Variable defaultInstanceVolumeDeleteTimeout : nat.

Definition resourceScalewayInstanceVolume : Resource.t Meta :=
  Resource.mk Meta
    (resourceScalewayInstanceVolumeCreate Meta instanceAPIWithZone
       instanceAPIWithZoneAndID newRandomName expandID)
    (resourceScalewayInstanceVolumeRead Meta instanceAPIWithZoneAndID)
    (resourceScalewayInstanceVolumeUpdate Meta instanceAPIWithZoneAndID
       DefaultWaitRetryInterval)
    (resourceScalewayInstanceVolumeDelete Meta instanceAPIWithZoneAndID)
    ImportStatePassthroughContext
    (ResourceTimeout.mk (Some defaultInstanceVolumeDeleteTimeout))
    [ ("name",
       Schema.mk TypeString true false true false
         "The name of the volume" None []);
      ("type",
       Schema.mk TypeString false true false true
         "The volume type"
         (Some (StringInSlice [VolumeVolumeTypeBSSD; VolumeVolumeTypeLSSD] false)) []);
      ("size_in_gb",
       Schema.mk TypeInt true false false false
         "The size of the volume in gigabyte" None
         ["from_snapshot_id"; "from_volume_id"]);
      ("from_volume_id",
       Schema.mk TypeString true false false true
         "Create a copy of an existing volume"
         (Some validationUUIDorUUIDWithLocality)
         ["from_snapshot_id"; "size_in_gb"]);
      ("from_snapshot_id",
       Schema.mk TypeString true false false true
         "Create a volume based on a image"
         (Some validationUUIDorUUIDWithLocality)
         ["from_volume_id"; "size_in_gb"]);
      ("server_id",
       Schema.mk TypeString false false true false
         "The server associated with this volume" None []);
      ("organization_id", organizationIDSchema);
      ("project_id", projectIDSchema);
      ("zone", zoneSchema) ].

End ResourceSchema.

(** Whether the attribute under a key is set to a non-zero value, as [GetOk]
    tells. *)
Definition isSet (d : ResourceData.t) (key : string) : bool :=
  if String.eqb key "name" then snd (ResourceData.GetOkString Attrs.name d)
  else if String.eqb key "type" then snd (ResourceData.GetOkString Attrs.type d)
  else if String.eqb key "size_in_gb" then snd (ResourceData.GetOkInt Attrs.size_in_gb d)
  else if String.eqb key "from_volume_id"
       then snd (ResourceData.GetOkString Attrs.from_volume_id d)
  else if String.eqb key "from_snapshot_id"
       then snd (ResourceData.GetOkString Attrs.from_snapshot_id d)
  else if String.eqb key "server_id" then snd (ResourceData.GetOkString Attrs.server_id d)
  else if String.eqb key "organization_id"
       then snd (ResourceData.GetOkString Attrs.organization_id d)
  else if String.eqb key "project_id"
       then snd (ResourceData.GetOkString Attrs.project_id d)
  else if String.eqb key "zone" then snd (ResourceData.GetOkString Attrs.zone d)
  else false.

(** Modelled from the spec: the check of [ConflictsWith], which the SDK makes
    before it calls the resource.  The attributes it names are "mutually
    exclusive": an attribute that is set has none of its conflicting
    attributes set. *)
Definition conflictFree (fields : list (string * Schema.t)) (d : ResourceData.t) : bool :=
  forallb (fun field =>
             negb (isSet d (fst field)) ||
             forallb (fun other => negb (isSet d other))
                     (Schema.ConflictsWith (snd field)))
          fields.

(** How many of the three sources of a volume a creation request names. *)
Definition sources (req : CreateVolumeRequest.t) : nat :=
  (match CreateVolumeRequest.Size req with Some _ => 1 | None => 0 end)
  + (match CreateVolumeRequest.BaseVolume req with Some _ => 1 | None => 0 end)
  + (match CreateVolumeRequest.BaseSnapshot req with Some _ => 1 | None => 0 end).

(** ** A simulated provider and remote system

    Concrete helpers and a small remote system computed from the history of
    calls, to run the functions on. *)

Module Sim.

Record Meta : Type := mkMeta { scwClient : API.t; defaultZone : Zone }.

Fixpoint splitZonedID (s : string) : option (string * string) :=
  match s with
  | EmptyString => None
  | String c rest =>
      if Ascii.eqb c "/"%char then Some (EmptyString, rest)
      else match splitZonedID rest with
           | Some (zone, id) => Some (String c zone, id)
           | None => None
           end
  end.

(** Modelled from the spec: [instanceAPIWithZoneAndID], a helper of the
    package that is not in this file.  The identifier {zone}/{remote-volume-id}
    is "reversible by the two callers needing zone+id separately". *)
Definition instanceAPIWithZoneAndID (meta : Meta) (zonedID : string)
  : result (API.t * Zone * string) :=
  match splitZonedID zonedID with
  | Some (zone, id) => Ok (scwClient meta, zone, id)
  | None => Err (errorString ("cant parse localized id: " ++ zonedID)%string)
  end.

(** Modelled from the spec: [instanceAPIWithZone], a helper of the package
    that is not in this file.  The zone is the placement attribute of the
    resource, or else the one of the provider. *)
Definition instanceAPIWithZone (d : ResourceData.t) (meta : Meta)
  : result (API.t * Zone) :=
  if String.eqb (ResourceData.Get Attrs.zone d) ""
  then Ok (scwClient meta, defaultZone meta)
  else Ok (scwClient meta, ResourceData.Get Attrs.zone d).

Definition newRandomName (prefix : string) : string :=
  ("tf-" ++ prefix ++ "-simulated")%string.

Definition expandID (id : string) : string :=
  match splitZonedID id with
  | Some (_, id') => id'
  | None => id
  end.

Definition DefaultWaitRetryInterval : option Z := None.

Definition notFound : error := ResponseError 404 "resource is not found".

Definition server0 : ServerSummary.t := ServerSummary.mk "srv-1" "web".

(** The one volume of the simulated remote system after a history of calls. *)
Fixpoint volumeAfter (acc : option Volume.t) (h : list Event) : option Volume.t :=
  match h with
  | [] => acc
  | CreateVolumeCall _ _ (Ok res) :: h' =>
      volumeAfter (Some (CreateVolumeResponse.Volume_ res)) h'
  | UpdateVolumeCall _ _ (Ok res) :: h' =>
      volumeAfter (Some (UpdateVolumeResponse.Volume_ res)) h'
  | DeleteVolumeCall _ _ None :: h' => volumeAfter None h'
  | _ :: h' => volumeAfter acc h'
  end.

Definition attach (attached : bool) (v : Volume.t) : Volume.t :=
  Volume.mk (Volume.ID v) (Volume.Name v) (Volume.Organization v) (Volume.Project v)
            (Volume.VolumeType_ v) (Volume.Size v)
            (if attached then Some server0 else None).

(** A remote system that holds [initial] at first, shows its volume attached
    to a server in the first [busy] calls, and refuses updates when
    [readonly]. *)
Definition cloud (initial : option Volume.t) (busy : nat) (readonly : bool) : API.t :=
  API.mk
    (fun h req opts =>
       Ok (CreateVolumeResponse.mk
             (Volume.mk "11111111-2222-3333-4444-555555555555"
                (CreateVolumeRequest.Name req) "org-1"
                (match CreateVolumeRequest.Project req with
                 | Some p => p
                 | None => "project-1"
                 end)
                (CreateVolumeRequest.VolumeType_ req)
                (match CreateVolumeRequest.Size req with
                 | Some size => size
                 | None => 0
                 end)
                None)))
    (fun h req opts =>
       match volumeAfter initial h with
       | Some v => Ok (GetVolumeResponse.mk (attach (Nat.ltb (length h) busy) v))
       | None => Err notFound
       end)
    (fun h req opts =>
       if readonly then Err (ResponseError 403 "permission denied") else
       match volumeAfter initial h with
       | Some v =>
           Ok (UpdateVolumeResponse.mk
                 (Volume.mk (Volume.ID v)
                    (match UpdateVolumeRequest.Name req with
                     | Some n => n
                     | None => Volume.Name v
                     end)
                    (Volume.Organization v) (Volume.Project v) (Volume.VolumeType_ v)
                    (match UpdateVolumeRequest.Size req with
                     | Some size => size
                     | None => Volume.Size v
                     end)
                    (Volume.Server v)))
       | None => Err notFound
       end)
    (fun h req opts =>
       match volumeAfter initial h with
       | Some _ => None
       | None => Some notFound
       end)
    (fun h req opts =>
       if readonly then Err (errorString "volume is in a transient state") else
       match volumeAfter initial h with
       | Some v => Ok v
       | None => Err notFound
       end).

Definition ctx0 : Context.t := Context.mk "apply" false.

Definition attrs (name type : string) (size : Z) : Attrs.t :=
  Attrs.mk name type size "" "" "" "" "" "fr-par-1".

Definition volume (name type : string) (sizeInGB : Z) : Volume.t :=
  Volume.mk "vol-1" name "org-1" "project-1" type (sizeInGB * 2 ^ 30) None.

(** A resource under the identifier [fr-par-1/vol-1]. *)
Definition resource (state planned : Attrs.t) (timeout : nat) : State.t :=
  State.mk (ResourceData.mk "fr-par-1/vol-1" state planned timeout) [].

(** The inputs of the runs below: a block volume of 10 GB named [data],
    the provider in front of a remote system, and the attributes as they are. *)
Definition blockVolume : Volume.t := volume "data" "b_ssd" 10.
Definition localVolume : Volume.t := volume "data" "l_ssd" 10.
Definition asIs : Attrs.t := attrs "data" "b_ssd" 10.
Definition provider (api : API.t) : Meta := mkMeta api "fr-par-1".

(** A resource that is not created yet. *)
Definition fresh (planned : Attrs.t) : State.t :=
  State.mk (ResourceData.mk "" (attrs "" "" 0) planned 3) [].

(** A remote system on which every call fails with [err]. *)
Definition failing (err : error) : API.t :=
  API.mk (fun _ _ _ => Err err) (fun _ _ _ => Err err) (fun _ _ _ => Err err)
         (fun _ _ _ => Some err) (fun _ _ _ => Err err).

Definition unavailable : error := ResponseError 503 "service unavailable".

(** A remote system that answers a creation with the id of the new volume
    alone and a fetch with the whole volume. *)
Definition terse : API.t :=
  API.mk (fun _ _ _ => Ok (CreateVolumeResponse.mk (Volume.mk "vol-1" "" "" "" "" 0 None)))
         (fun _ _ _ => Ok (GetVolumeResponse.mk blockVolume))
         (fun _ _ _ => Err unavailable) (fun _ _ _ => Some unavailable)
         (fun _ _ _ => Err unavailable).

Definition createRequest := createVolumeRequest newRandomName expandID.
Definition Create := resourceScalewayInstanceVolumeCreate
  Meta instanceAPIWithZone instanceAPIWithZoneAndID newRandomName expandID.
Definition Read := resourceScalewayInstanceVolumeRead Meta instanceAPIWithZoneAndID.
Definition Update := resourceScalewayInstanceVolumeUpdate
  Meta instanceAPIWithZoneAndID DefaultWaitRetryInterval.
Definition Delete := resourceScalewayInstanceVolumeDelete Meta instanceAPIWithZoneAndID.

(** A helper that finds no zone. *)
Definition unzoned (d : ResourceData.t) (meta : Meta) : result (API.t * Zone) :=
  Err (errorString "zone is required").

(** A remote system that creates the volume and fails every other call with
    [err]. *)
Definition orphaning (err : error) : API.t :=
  API.mk (fun _ _ _ => Ok (CreateVolumeResponse.mk blockVolume))
         (fun _ _ _ => Err err) (fun _ _ _ => Err err)
         (fun _ _ _ => Some err) (fun _ _ _ => Err err).


(** The schema of the resource in front of the simulated helpers. *)
Definition placementSchema : Schema.t :=
  Schema.mk TypeString true false true true "placement" None [].

Definition StringInSlice (valid : list string) (ignoreCase : bool) (v : string) : bool :=
  existsb (String.eqb v) valid.

Definition schema : list (string * Schema.t) :=
  Resource.Schema_
    (resourceScalewayInstanceVolume Meta instanceAPIWithZone instanceAPIWithZoneAndID
       newRandomName expandID DefaultWaitRetryInterval
       placementSchema placementSchema placementSchema
       StringInSlice (fun _ => true) 3).

(** Attributes planned over a copy of another volume. *)
Definition copyOf (base : string) : Attrs.t :=
  Attrs.mk "old" "l_ssd" 0 base "" "" "" "" "".

End Sim.


(** ** Facts about the log of calls *)

Lemma calls_app (s : State.t) (d' : ResourceData.t) (evs : list Event) :
  calls s (State.mk d' (State.trace s ++ evs)) = evs.
Proof.
  unfold calls; simpl.
  induction (State.trace s) as [|e t IH]; simpl; auto.
Qed.

Lemma calls_same (s : State.t) : calls s s = [].
Proof.
  unfold calls. induction (State.trace s) as [|e t IH]; simpl; auto.
Qed.

Lemma state_eta (s : State.t) : State.mk (State.d s) (State.trace s) = s.
Proof. destruct s; reflexivity. Qed.

(** Splitting a list of one or two calls around one of its elements. *)
Lemma split_one {A : Type} (x y : A) (pre post : list A) :
  [x] = pre ++ y :: post -> pre = [] /\ x = y /\ post = [].
Proof.
  destruct pre as [|a pre]; simpl; intros H.
  - inversion H; auto.
  - inversion H as [[Ha Hnil]]. destruct pre; discriminate.
Qed.

Lemma split_two {A : Type} (x1 x2 y : A) (pre post : list A) :
  [x1; x2] = pre ++ y :: post ->
  (pre = [] /\ x1 = y /\ post = [x2]) \/ (pre = [x1] /\ x2 = y /\ post = []).
Proof.
  destruct pre as [|a pre]; simpl; intros H.
  - inversion H; auto.
  - inversion H as [[Ha Hrest]]. apply split_one in Hrest.
    destruct Hrest as (-> & -> & ->). auto.
Qed.

(** ** Running a function body step by step *)

Lemma exec_bind {R A : Type} (m : Fn R A) (k : A -> Fn R R) (s : State.t) :
  exec (x <- m ;; k x) s =
  match m s with
  | (inl r, s') => (r, s')
  | (inr a, s') => exec (k a) s'
  end.
Proof.
  unfold exec, bind. destruct (m s) as [[r|a] s']; reflexivity.
Qed.

Lemma exec_call {R : Type} (body : Fn R R) (s : State.t) :
  exec (call body) s = exec body s.
Proof.
  unfold call. unfold exec at 1. destruct (exec body s); reflexivity.
Qed.

Lemma exec_assoc {R A B : Type} (m : Fn R A) (k : A -> Fn R B) (k' : B -> Fn R R)
    (s : State.t) :
  exec (y <- (x <- m ;; k x) ;; k' y) s = exec (x <- m ;; y <- k x ;; k' y) s.
Proof.
  unfold exec, bind. destruct (m s) as [[r|a] s1]; reflexivity.
Qed.

Lemma exec_ret {R A : Type} (a : A) (k : A -> Fn R R) (s : State.t) :
  exec (x <- ret a ;; k x) s = exec (k a) s.
Proof. reflexivity. Qed.

Lemma exec_Return {R A : Type} (r : R) (k : A -> Fn R R) (s : State.t) :
  exec (x <- Return r ;; k x) s = (r, s).
Proof. reflexivity. Qed.

Lemma exec_remote {R A : Type} (answer : list Event -> A) (ev : A -> Event)
    (k : A -> Fn R R) (s : State.t) :
  exec (x <- remote answer ev ;; k x) s =
  exec (k (answer (State.trace s)))
       (State.mk (State.d s) (State.trace s ++ [ev (answer (State.trace s))])).
Proof. reflexivity. Qed.

(** One remote call of a run: execute it and split on its answer. *)
Ltac remote_call H :=
  rewrite exec_assoc, exec_remote in H;
  match type of H with
  | exec (match ?answer with _ => _ end ;; _) _ = _ => destruct answer
  end;
  [rewrite ?exec_ret in H | rewrite exec_Return in H];
  cbn [State.d State.trace] in H.

(** What is left of a run once its result is known. *)
Ltac run_done H :=
  inversion H; subst; clear H;
  cbn [State.d State.trace] in *;
  rewrite <- ?app_assoc in *;
  rewrite ?calls_app, ?calls_same in *;
  cbn [app] in *.

(** ** The polling loop of the delete *)

Section DeleteLoop.

Variables (ctx : Context.t) (zone : Zone) (id : string).

(** Every call of the loop is a fetch without context or a delete with the
    context of the caller. *)
Lemma DeleteRun_contexts rounds last evs res :
  DeleteRun ctx zone id rounds last evs res ->
  Forall (deleteCallContext ctx) evs.
Proof.
  induction 1; repeat constructor; auto.
Qed.

(** A delete call is the last call of the loop, and the call before it is a
    fetch of the same volume that shows no server. *)
Lemma DeleteRun_guard rounds last evs res :
  DeleteRun ctx zone id rounds last evs res ->
  forall pre req opts r post,
    evs = pre ++ DeleteVolumeCall req opts r :: post ->
    exists pre' resp,
      pre = pre' ++ [GetVolumeCall (GetVolumeRequest.mk zone id) [] (Ok resp)] /\
      forallb showsAttached pre' = true /\
      Volume.Server (GetVolumeResponse.Volume_ resp) = None /\
      req = DeleteVolumeRequest.mk zone id /\ post = [].
Proof.
  induction 1 as [last | rounds last err H404 | rounds last err H404
                  | rounds last resp res Hfree
                  | rounds last resp server evs res Hbusy Hrun IH];
    intros pre req opts r post Heq.
  - destruct pre; discriminate.
  - apply split_one in Heq. destruct Heq as (_ & He & _); discriminate.
  - apply split_one in Heq. destruct Heq as (_ & He & _); discriminate.
  - apply split_two in Heq.
    destruct Heq as [(_ & He & _) | (-> & He & ->)]; [discriminate|].
    inversion He; subst. exists [], resp. auto.
  - destruct pre as [|e pre]; simpl in Heq; [discriminate|].
    inversion Heq as [[He Hrest]]. subst e.
    destruct (IH _ _ _ _ _ Hrest) as (pre' & resp' & -> & Hpre & Hfree & -> & ->).
    exists (GetVolumeCall (GetVolumeRequest.mk zone id) [] (Ok resp) :: pre'), resp'.
    simpl. rewrite Hbusy. auto.
Qed.

(** When every fetch of the loop shows the volume attached, the loop uses up
    its rounds and ends on the timeout error. *)
Lemma DeleteRun_deadline_elapses rounds last evs res :
  DeleteRun ctx zone id rounds last evs res ->
  forallb showsAttached evs = true ->
  length evs = rounds /\
  res = Some (TimeoutError (match rounds with O => last | S _ => Some stillAttached end)).
Proof.
  induction 1 as [last | rounds last err H404 | rounds last err H404
                  | rounds last resp res Hfree
                  | rounds last resp server evs res Hbusy Hrun IH];
    simpl; intros Hall; try discriminate.
  - auto.
  - rewrite Hfree in Hall. discriminate.
  - rewrite Hbusy in Hall. simpl in Hall.
    destruct (IH Hall) as [Hlen ->]. split; [congruence|].
    destruct rounds; reflexivity.
Qed.

(** A fetch that fails is the last call of the loop; not-found ends the loop
    with success and any other failure ends it with that failure. *)
Lemma DeleteRun_fetch_fails rounds last evs res :
  DeleteRun ctx zone id rounds last evs res ->
  forall req opts err,
    In (GetVolumeCall req opts (Err err)) evs ->
    (exists pre, evs = pre ++ [GetVolumeCall req opts (Err err)] /\
                 forallb showsAttached pre = true) /\
    res = (if is404Error err then None else Some err).
Proof.
  induction 1 as [last | rounds last err H404 | rounds last err H404
                  | rounds last resp res Hfree
                  | rounds last resp server evs res Hbusy Hrun IH];
    intros req opts e Hin; simpl in Hin.
  - contradiction.
  - destruct Hin as [He|[]]. inversion He; subst.
    rewrite H404. split; [exists []|]; auto.
  - destruct Hin as [He|[]]. inversion He; subst.
    rewrite H404. split; [exists []|]; auto.
  - destruct Hin as [He|[He|[]]]; discriminate.
  - destruct Hin as [He|Hin]; [discriminate|].
    destruct (IH _ _ _ Hin) as [(pre & -> & Hpre) Hres].
    split; auto.
    exists (GetVolumeCall (GetVolumeRequest.mk zone id) [] (Ok resp) :: pre).
    simpl. rewrite Hbusy. auto.
Qed.

(** One round of the loop, call by call. *)
Lemma deleteAttempt_exec (api : API.t) (s : State.t) :
  exec (deleteAttempt ctx api zone id) s =
  let fetch := GetVolumeRequest.mk zone id in
  match API.GetVolume api (State.trace s) fetch [] with
  | Err err =>
      (if is404Error err then None else Some (NonRetryableError err),
       State.mk (State.d s) (State.trace s ++ [GetVolumeCall fetch [] (Err err)]))
  | Ok resp =>
      match Volume.Server (GetVolumeResponse.Volume_ resp) with
      | Some _ =>
          (Some (RetryableError stillAttached),
           State.mk (State.d s) (State.trace s ++ [GetVolumeCall fetch [] (Ok resp)]))
      | None =>
          let h := State.trace s ++ [GetVolumeCall fetch [] (Ok resp)] in
          let deleteRequest := DeleteVolumeRequest.mk zone id in
          let err := API.DeleteVolume api h deleteRequest [WithContext ctx] in
          (match err with
           | Some err => Some (NonRetryableError err)
           | None => None
           end,
           State.mk (State.d s)
             (h ++ [DeleteVolumeCall deleteRequest [WithContext ctx] err]))
      end
  end.
Proof.
  unfold exec, deleteAttempt, bind, GetVolume, DeleteVolume, remote, Return.
  cbv zeta.
  destruct (API.GetVolume api (State.trace s) (GetVolumeRequest.mk zone id) [])
    as [resp|err].
  - destruct (Volume.Server (GetVolumeResponse.Volume_ resp)); [reflexivity|].
    cbn [State.trace State.d].
    destruct (API.DeleteVolume api _ _ _); reflexivity.
  - destruct (is404Error err); reflexivity.
Qed.

Lemma retryRounds_S (R : Type) (rounds : nat) (last : option error)
    (f : Fn (option RetryError.t) (option RetryError.t)) (s : State.t) :
  @retryRounds R (S rounds) last f s =
  let (rerr, s') := exec f s in
  match rerr with
  | None => (inr None, s')
  | Some e =>
      if RetryError.Retryable e
      then retryRounds rounds (Some (RetryError.Err_ e)) f s'
      else (inr (Some (RetryError.Err_ e)), s')
  end.
Proof.
  cbn [retryRounds]. unfold bind, call.
  destruct (exec f s) as [[e|] s']; [|reflexivity].
  destruct (RetryError.Retryable e); reflexivity.
Qed.

(** The loop of the source does run this way, whatever the remote system
    answers. *)
Lemma retryRounds_deleteAttempt (R : Type) (api : API.t) (rounds : nat) :
  forall (last : option error) (s : State.t),
  exists res evs,
    @retryRounds R rounds last (deleteAttempt ctx api zone id) s
      = (inr res, State.mk (State.d s) (State.trace s ++ evs)) /\
    DeleteRun ctx zone id rounds last evs res.
Proof.
  induction rounds as [|rounds IH]; intros last s.
  - exists (Some (TimeoutError last)), []. rewrite app_nil_r, state_eta.
    split; [reflexivity | constructor].
  - rewrite retryRounds_S, deleteAttempt_exec. cbv zeta.
    destruct (API.GetVolume api (State.trace s) (GetVolumeRequest.mk zone id) [])
      as [resp|err].
    + destruct (Volume.Server (GetVolumeResponse.Volume_ resp)) as [server|] eqn:Hsrv.
      * cbn [RetryableError RetryError.Retryable RetryError.Err_].
        destruct (IH (Some stillAttached)
                    (State.mk (State.d s)
                       (State.trace s ++
                        [GetVolumeCall (GetVolumeRequest.mk zone id) [] (Ok resp)])))
          as (res & evs & Hrun & Hshape).
        exists res, (GetVolumeCall (GetVolumeRequest.mk zone id) [] (Ok resp) :: evs).
        rewrite Hrun. cbn [State.d State.trace]. rewrite <- app_assoc.
        split; [reflexivity|]. econstructor; eauto.
      * destruct (API.DeleteVolume api _ _ _) as [err|];
          cbn [NonRetryableError RetryError.Retryable RetryError.Err_];
          rewrite <- app_assoc; cbn [app].
        -- exists (Some err). eexists. split; [reflexivity|]. constructor; auto.
        -- exists None. eexists. split; [reflexivity|]. constructor; auto.
    + destruct (is404Error err) eqn:H404;
        cbn [NonRetryableError RetryError.Retryable RetryError.Err_].
      * exists None. eexists. split; [reflexivity|]. constructor; auto.
      * exists (Some err). eexists. split; [reflexivity|]. constructor; auto.
Qed.

End DeleteLoop.

(** ** The delete *)

Section Delete.

Variable Meta : Type.
Variable instanceAPIWithZoneAndID : Meta -> string -> result (API.t * Zone * string).

Local Abbreviation Delete := (resourceScalewayInstanceVolumeDelete Meta instanceAPIWithZoneAndID).

(** A run of the delete: nothing when the identifier does not resolve, one run
    of the polling loop otherwise.  The resource data is left as it was. *)
Lemma Delete_exec (ctx : Context.t) (meta : Meta) (s : State.t) :
  match instanceAPIWithZoneAndID meta (ResourceData.Id (State.d s)) with
  | Err err => exec (Delete ctx meta) s = (FromErr err, s)
  | Ok (_, zone, id) =>
      exists res evs,
        exec (Delete ctx meta) s =
          (match res with Some err => FromErr err | None => [] end,
           State.mk (State.d s) (State.trace s ++ evs)) /\
        DeleteRun ctx zone id (ResourceData.TimeoutDelete (State.d s)) None evs res
  end.
Proof.
  destruct (instanceAPIWithZoneAndID meta (ResourceData.Id (State.d s)))
    as [[[api zone] id]|err] eqn:Hid;
    unfold exec, resourceScalewayInstanceVolumeDelete, bind, getData;
    rewrite Hid; [|reflexivity].
  unfold Retry.
  destruct (retryRounds_deleteAttempt ctx zone id Diagnostics api
              (ResourceData.TimeoutDelete (State.d s)) None s)
    as (res & evs & Hrun & Hshape).
  exists res, evs. rewrite Hrun. split; [|exact Hshape].
  destruct res; reflexivity.
Qed.

(** C1.  In every run of the delete, a DeleteVolume call comes right after a
    fetch of the same volume that shows no attached server, after rounds that
    each began with a fetch showing the volume attached, and it is the last
    call.  When the identifier resolves and every fetch of the run shows the
    volume attached, the run polls for the whole deadline and returns a
    timeout error. *)
Theorem delete_only_when_detached (ctx : Context.t) (meta : Meta)
    (s s' : State.t) (diags : Diagnostics) :
  exec (Delete ctx meta) s = (diags, s') ->
  (forall pre req opts r post,
      calls s s' = pre ++ DeleteVolumeCall req opts r :: post ->
      exists pre' resp,
        pre = pre' ++
              [GetVolumeCall
                 (GetVolumeRequest.mk (DeleteVolumeRequest.Zone_ req)
                                      (DeleteVolumeRequest.VolumeID req))
                 [] (Ok resp)] /\
        forallb showsAttached pre' = true /\
        Volume.Server (GetVolumeResponse.Volume_ resp) = None /\
        post = []) /\
  (forall api zone id,
      instanceAPIWithZoneAndID meta (ResourceData.Id (State.d s)) = Ok (api, zone, id) ->
      forallb showsAttached (calls s s') = true ->
      length (calls s s') = ResourceData.TimeoutDelete (State.d s) /\
      isTimeoutError diags).
Proof.
  intros Hexec. pose proof (Delete_exec ctx meta s) as Hrun.
  destruct (instanceAPIWithZoneAndID meta (ResourceData.Id (State.d s)))
    as [[[api zone] id]|err].
  - destruct Hrun as (res & evs & Hrun & Hshape).
    rewrite Hrun in Hexec. inversion Hexec; subst diags s'; clear Hexec.
    rewrite calls_app. split.
    + intros pre req opts r post Heq.
      destruct (DeleteRun_guard _ _ _ _ _ _ _ Hshape _ _ _ _ _ Heq)
        as (pre' & resp & -> & Hpre & Hfree & -> & ->).
      exists pre', resp. auto.
    + intros api' zone' id' _ Hall.
      destruct (DeleteRun_deadline_elapses _ _ _ _ _ _ _ Hshape Hall) as [Hlen ->].
      split; [exact Hlen|]. eexists. reflexivity.
  - rewrite Hrun in Hexec. inversion Hexec; subst diags s'; clear Hexec.
    rewrite calls_same. split.
    + intros pre req opts r post Heq. destruct pre; discriminate.
    + intros api zone id Hok. discriminate.
Qed.

(** C5.  In every run of the delete, a fetch that fails is the last call, no
    DeleteVolume call is issued, and the delete returns success when the
    failure is not-found and the failure itself, as an error, otherwise. *)
Theorem delete_fetch_failure (ctx : Context.t) (meta : Meta)
    (s s' : State.t) (diags : Diagnostics) :
  exec (Delete ctx meta) s = (diags, s') ->
  forall req opts err,
    In (GetVolumeCall req opts (Err err)) (calls s s') ->
    (exists pre, calls s s' = pre ++ [GetVolumeCall req opts (Err err)] /\
                 forallb showsAttached pre = true) /\
    existsb isDeleteVolume (calls s s') = false /\
    diags = (if is404Error err then [] else FromErr err).
Proof.
  intros Hexec req opts err Hin. pose proof (Delete_exec ctx meta s) as Hrun.
  destruct (instanceAPIWithZoneAndID meta (ResourceData.Id (State.d s)))
    as [[[api zone] id]|e].
  - destruct Hrun as (res & evs & Hrun & Hshape).
    rewrite Hrun in Hexec. inversion Hexec; subst diags s'; clear Hexec.
    rewrite calls_app in *.
    destruct (DeleteRun_fetch_fails _ _ _ _ _ _ _ Hshape _ _ _ Hin)
      as [(pre & -> & Hpre) ->].
    split; [exists pre; auto|]. split.
    + rewrite existsb_app. simpl. rewrite orb_false_r.
      clear - Hpre. induction pre as [|e pre IH]; simpl in *; [reflexivity|].
      apply andb_true_iff in Hpre. destruct Hpre as [He Hpre].
      rewrite (IH Hpre). destruct e; try discriminate. reflexivity.
    + destruct (is404Error err); reflexivity.
  - rewrite Hrun in Hexec. inversion Hexec; subst diags s'; clear Hexec.
    rewrite calls_same in Hin. contradiction.
Qed.

End Delete.

(** ** The read *)

Section Read.

Variable Meta : Type.
Variable instanceAPIWithZoneAndID : Meta -> string -> result (API.t * Zone * string).

Local Abbreviation Read := (resourceScalewayInstanceVolumeRead Meta instanceAPIWithZoneAndID).

(** A run of the read, call by call. *)
Lemma Read_exec (ctx : Context.t) (meta : Meta) (s : State.t) :
  exec (Read ctx meta) s =
  match instanceAPIWithZoneAndID meta (ResourceData.Id (State.d s)) with
  | Err err => (FromErr err, s)
  | Ok (api, zone, id) =>
      let fetch := GetVolumeRequest.mk zone id in
      let res := API.GetVolume api (State.trace s) fetch [WithContext ctx] in
      let h := State.trace s ++ [GetVolumeCall fetch [WithContext ctx] res] in
      match res with
      | Err err =>
          if is404Error err
          then ([], State.mk (ResourceData.SetId "" (State.d s)) h)
          else (FromErr (Errorf "couldn't read volume: " err), State.mk (State.d s) h)
      | Ok res =>
          ([], State.mk (ResourceData.Set_
                           (observed zone (GetVolumeResponse.Volume_ res))
                           (State.d s)) h)
      end
  end.
Proof.
  unfold exec, resourceScalewayInstanceVolumeRead, bind, getData, GetVolume, remote.
  destruct (instanceAPIWithZoneAndID meta (ResourceData.Id (State.d s)))
    as [[[api zone] id]|err]; [|reflexivity].
  cbv zeta.
  destruct (API.GetVolume api (State.trace s) (GetVolumeRequest.mk zone id)
              [WithContext ctx]) as [res|err].
  - destruct (Volume.Server (GetVolumeResponse.Volume_ res)) eqn:Hsrv;
      cbn; unfold observed; rewrite Hsrv; reflexivity.
  - destruct (is404Error err); reflexivity.
Qed.

(** C4.  When the GetVolume call of a read fails, the read issues nothing
    else.  On not-found it clears the identifier and returns no diagnostic;
    on any other failure it returns the failure wrapped in an error and
    leaves the resource data, the identifier with it, as it was. *)
Theorem read_get_volume_fails (ctx : Context.t) (meta : Meta) (s s' : State.t)
    (diags : Diagnostics) (api : API.t) (zone : Zone) (id : string) (err : error) :
  instanceAPIWithZoneAndID meta (ResourceData.Id (State.d s)) = Ok (api, zone, id) ->
  API.GetVolume api (State.trace s) (GetVolumeRequest.mk zone id) [WithContext ctx]
    = Err err ->
  exec (Read ctx meta) s = (diags, s') ->
  calls s s' = [GetVolumeCall (GetVolumeRequest.mk zone id) [WithContext ctx] (Err err)] /\
  (is404Error err = true ->
     diags = [] /\ HasError diags = false /\
     State.d s' = ResourceData.SetId "" (State.d s) /\
     ResourceData.Id (State.d s') = "") /\
  (is404Error err = false ->
     diags = FromErr (Errorf "couldn't read volume: " err) /\ HasError diags = true /\
     State.d s' = State.d s).
Proof.
  intros Hid Hget Hexec. rewrite Read_exec, Hid in Hexec. cbv zeta in Hexec.
  rewrite Hget in Hexec.
  destruct (is404Error err); inversion Hexec; subst diags s'; clear Hexec;
    rewrite calls_app; (split; [reflexivity|]); split; intros H;
    try discriminate; auto.
Qed.

End Read.

(** ** The update *)

Section Update.

Variable Meta : Type.
Variable instanceAPIWithZoneAndID : Meta -> string -> result (API.t * Zone * string).
Variable DefaultWaitRetryInterval : option Z.

Local Abbreviation Read := (resourceScalewayInstanceVolumeRead Meta instanceAPIWithZoneAndID).
Local Abbreviation Update :=
  (resourceScalewayInstanceVolumeUpdate Meta instanceAPIWithZoneAndID
     DefaultWaitRetryInterval).

(** An update whose size change is not permitted: the rename, when the name
    changed too, is its only call, and it ends on the validation error unless
    the rename failed. *)
Lemma Update_rejected (ctx : Context.t) (meta : Meta) (s : State.t)
    (validation : Diagnostics) :
  ResourceData.HasChangeInt Attrs.size_in_gb (State.d s) = true ->
  sizeChangeRejected (State.d s) = Some validation ->
  exec (Update ctx meta) s =
  match instanceAPIWithZoneAndID meta (ResourceData.Id (State.d s)) with
  | Err err => (FromErr err, s)
  | Ok (api, zone, id) =>
      if ResourceData.HasChangeString Attrs.name (State.d s) then
        let rename := renameRequest zone id (State.d s) in
        let res := API.UpdateVolume api (State.trace s) rename [WithContext ctx] in
        (match res with
         | Ok _ => validation
         | Err err => FromErr (Errorf "couldn't update volume: " err)
         end,
         State.mk (State.d s)
           (State.trace s ++ [UpdateVolumeCall rename [WithContext ctx] res]))
      else (validation, s)
  end.
Proof.
  intros Hsize Hrej.
  unfold resourceScalewayInstanceVolumeUpdate.
  rewrite exec_bind. unfold getData at 1.
  destruct (instanceAPIWithZoneAndID meta (ResourceData.Id (State.d s)))
    as [[[api zone] id]|err]; [|reflexivity].
  rewrite Hsize. unfold sizeChangeRejected in Hrej.
  rewrite exec_bind.
  destruct (ResourceData.HasChangeString Attrs.name (State.d s)).
  - unfold bind at 1, UpdateVolume, remote. cbv zeta. fold (renameRequest zone id (State.d s)).
    destruct (API.UpdateVolume api (State.trace s) (renameRequest zone id (State.d s))
                [WithContext ctx]) as [res|err]; [|reflexivity].
    unfold ret at 1. rewrite exec_bind.
    destruct (negb _).
    + inversion Hrej; reflexivity.
    + unfold ResourceData.GetChange.
      destruct (_ >? _); [inversion Hrej; reflexivity | discriminate].
  - unfold ret at 1. rewrite exec_bind.
    destruct (negb _).
    + inversion Hrej; reflexivity.
    + unfold ResourceData.GetChange.
      destruct (_ >? _); [inversion Hrej; reflexivity | discriminate].
Qed.

(** C2, amended.  An update to a smaller size returns an error, issues no wait
    and no resize, and leaves the resource data as it was.  When the identifier
    resolves: with the name unchanged it issues no remote call at all and the
    error is a validation error; with the name changed the rename is issued
    first and is its only call, and the validation error follows a rename that
    succeeded. *)
Theorem update_size_down (ctx : Context.t) (meta : Meta) (s s' : State.t)
    (diags : Diagnostics) :
  Attrs.size_in_gb (ResourceData.planned (State.d s))
    < Attrs.size_in_gb (ResourceData.state (State.d s)) ->
  exec (Update ctx meta) s = (diags, s') ->
  HasError diags = true /\
  existsb isResizeRelated (calls s s') = false /\
  State.d s' = State.d s /\
  forall api zone id,
    instanceAPIWithZoneAndID meta (ResourceData.Id (State.d s)) = Ok (api, zone, id) ->
    (ResourceData.HasChangeString Attrs.name (State.d s) = false ->
       calls s s' = [] /\ ValidationError diags) /\
    (ResourceData.HasChangeString Attrs.name (State.d s) = true ->
       let rename := renameRequest zone id (State.d s) in
       let res := API.UpdateVolume api (State.trace s) rename [WithContext ctx] in
       calls s s' = [UpdateVolumeCall rename [WithContext ctx] res] /\
       match res with
       | Ok _ => ValidationError diags
       | Err err => diags = FromErr (Errorf "couldn't update volume: " err)
       end).
Proof.
  intros Hlt Hexec.
  assert (Hsize : ResourceData.HasChangeInt Attrs.size_in_gb (State.d s) = true).
  { unfold ResourceData.HasChangeInt. apply negb_true_iff, Z.eqb_neq. lia. }
  assert (Hrej : exists validation,
             sizeChangeRejected (State.d s) = Some validation /\
             ValidationError validation /\ HasError validation = true).
  { unfold sizeChangeRejected. destruct (negb _).
    - exists onlyBlockResized. unfold ValidationError. auto.
    - apply Z.gtb_lt in Hlt. rewrite Hlt.
      exists noResizeDown. unfold ValidationError. auto. }
  destruct Hrej as (validation & Hrej & Hval & Herr).
  rewrite (Update_rejected ctx meta s validation Hsize Hrej) in Hexec.
  destruct (instanceAPIWithZoneAndID meta (ResourceData.Id (State.d s)))
    as [[[api zone] id]|err].
  - destruct (ResourceData.HasChangeString Attrs.name (State.d s)).
    + cbv zeta in Hexec.
      destruct (API.UpdateVolume api (State.trace s) (renameRequest zone id (State.d s))
                  [WithContext ctx]) as [res|err] eqn:Hrename;
        run_done Hexec; (split; [|split; [|split]]); auto;
        intros api' zone' id' Hok; inversion Hok; subst; cbv zeta; rewrite Hrename;
        split; intros; try discriminate; auto.
    + run_done Hexec. (split; [|split; [|split]]); auto.
      intros api' zone' id' Hok. split; intros; try discriminate; auto.
  - run_done Hexec. (split; [|split; [|split]]); auto.
    intros api' zone' id' Hok. discriminate.
Qed.

(** C7, amended.  An update that changes the size of a volume whose type is
    not block storage returns an error, issues no wait and no resize, and
    leaves the resource data as it was.  When the identifier resolves, the
    error is the validation error "only block volume can be resized", unless
    the name changed too and the rename, issued first, failed: then it is the
    wrapped error of the rename. *)
Theorem update_size_of_non_block_volume (ctx : Context.t) (meta : Meta)
    (s s' : State.t) (diags : Diagnostics) :
  ResourceData.HasChangeInt Attrs.size_in_gb (State.d s) = true ->
  ResourceData.Get Attrs.type (State.d s) <> VolumeVolumeTypeBSSD ->
  exec (Update ctx meta) s = (diags, s') ->
  HasError diags = true /\
  existsb isResizeRelated (calls s s') = false /\
  State.d s' = State.d s /\
  forall api zone id,
    instanceAPIWithZoneAndID meta (ResourceData.Id (State.d s)) = Ok (api, zone, id) ->
    (ResourceData.HasChangeString Attrs.name (State.d s) = false ->
       calls s s' = [] /\ diags = onlyBlockResized) /\
    (ResourceData.HasChangeString Attrs.name (State.d s) = true ->
       let rename := renameRequest zone id (State.d s) in
       let res := API.UpdateVolume api (State.trace s) rename [WithContext ctx] in
       calls s s' = [UpdateVolumeCall rename [WithContext ctx] res] /\
       diags = match res with
               | Ok _ => onlyBlockResized
               | Err err => FromErr (Errorf "couldn't update volume: " err)
               end).
Proof.
  intros Hsize Htype Hexec.
  assert (Hrej : sizeChangeRejected (State.d s) = Some onlyBlockResized).
  { unfold sizeChangeRejected.
    destruct (String.eqb_spec (ResourceData.Get Attrs.type (State.d s))
                VolumeVolumeTypeBSSD); [contradiction | reflexivity]. }
  rewrite (Update_rejected ctx meta s _ Hsize Hrej) in Hexec.
  destruct (instanceAPIWithZoneAndID meta (ResourceData.Id (State.d s)))
    as [[[api zone] id]|err].
  - destruct (ResourceData.HasChangeString Attrs.name (State.d s)).
    + cbv zeta in Hexec.
      destruct (API.UpdateVolume api (State.trace s) (renameRequest zone id (State.d s))
                  [WithContext ctx]) as [res|err] eqn:Hrename;
        run_done Hexec; (split; [|split; [|split]]); auto;
        intros api' zone' id' Hok; inversion Hok; subst; cbv zeta; rewrite Hrename;
        split; intros; try discriminate; auto.
    + run_done Hexec. (split; [|split; [|split]]); auto.
      intros api' zone' id' Hok. split; intros; try discriminate; auto.
  - run_done Hexec. (split; [|split; [|split]]); auto.
    intros api' zone' id' Hok. discriminate.
Qed.

(** C10.  An update in which neither the name nor the size changed is the
    final read and nothing else: it issues no UpdateVolume, no WaitForVolume
    and no other mutating call, and its one remote call, when the identifier
    resolves, is the GetVolume of that read. *)
Theorem update_nothing_changed (ctx : Context.t) (meta : Meta) (s s' : State.t)
    (diags : Diagnostics) :
  ResourceData.HasChangeString Attrs.name (State.d s) = false ->
  ResourceData.HasChangeInt Attrs.size_in_gb (State.d s) = false ->
  exec (Update ctx meta) s = (diags, s') ->
  exec (Read ctx meta) s = (diags, s') /\
  existsb isMutatingOrWait (calls s s') = false /\
  match instanceAPIWithZoneAndID meta (ResourceData.Id (State.d s)) with
  | Ok (api, zone, id) =>
      exists res,
        calls s s' = [GetVolumeCall (GetVolumeRequest.mk zone id) [WithContext ctx] res]
  | Err _ => calls s s' = []
  end.
Proof.
  intros Hname Hsize Hexec.
  assert (Hread : exec (Update ctx meta) s = exec (Read ctx meta) s).
  { unfold resourceScalewayInstanceVolumeUpdate.
    rewrite exec_bind. unfold getData at 1.
    destruct (instanceAPIWithZoneAndID meta (ResourceData.Id (State.d s)))
      as [[[api zone] id]|err] eqn:Hid.
    - rewrite Hname, Hsize, !exec_bind. unfold ret. apply exec_call.
    - rewrite Read_exec, Hid. reflexivity. }
  rewrite Hread in Hexec. split; [exact Hexec|].
  rewrite Read_exec in Hexec.
  destruct (instanceAPIWithZoneAndID meta (ResourceData.Id (State.d s)))
    as [[[api zone] id]|err].
  - cbv zeta in Hexec.
    destruct (API.GetVolume api (State.trace s) (GetVolumeRequest.mk zone id)
                [WithContext ctx]) as [res|err];
      [|destruct (is404Error err)]; run_done Hexec; split; eauto.
  - run_done Hexec. auto.
Qed.

(** C6.  In an update with a permitted size increase, when the first
    WaitForVolume call of the run fails, the update returns that failure as an
    error, the failed wait is its last call, no resize request is issued, and
    the resource data is as it was. *)
Theorem update_first_wait_fails (ctx : Context.t) (meta : Meta) (s s' : State.t)
    (diags : Diagnostics) :
  ResourceData.HasChangeInt Attrs.size_in_gb (State.d s) = true ->
  ResourceData.Get Attrs.type (State.d s) = VolumeVolumeTypeBSSD ->
  Attrs.size_in_gb (ResourceData.state (State.d s))
    <= Attrs.size_in_gb (ResourceData.planned (State.d s)) ->
  exec (Update ctx meta) s = (diags, s') ->
  forall req opts err,
    hd_error (filter isWaitForVolume (calls s s'))
      = Some (WaitForVolumeCall req opts (Err err)) ->
    diags = FromErr err /\ HasError diags = true /\
    existsb isResize (calls s s') = false /\
    (exists pre, calls s s' = pre ++ [WaitForVolumeCall req opts (Err err)]) /\
    State.d s' = State.d s.
Proof.
  intros Hsize Htype Hle Hexec req opts err Hfirst.
  unfold resourceScalewayInstanceVolumeUpdate in Hexec.
  rewrite exec_bind in Hexec. unfold getData at 1 in Hexec.
  destruct (instanceAPIWithZoneAndID meta (ResourceData.Id (State.d s)))
    as [[[api zone] id]|e] eqn:Hid.
  2:{ run_done Hexec. discriminate. }
  rewrite Hsize, Htype in Hexec. unfold ResourceData.GetChange in Hexec.
  assert (Hgt : (Attrs.size_in_gb (ResourceData.state (State.d s))
                 >? Attrs.size_in_gb (ResourceData.planned (State.d s))) = false).
  { rewrite Z.gtb_ltb. apply Z.ltb_ge. exact Hle. }
  rewrite Hgt in Hexec.
  change (negb (VolumeVolumeTypeBSSD =? VolumeVolumeTypeBSSD)%string) with false in Hexec.
  cbv iota in Hexec. unfold UpdateVolume, WaitForVolume in Hexec.
  destruct (ResourceData.HasChangeString Attrs.name (State.d s)).
  - remote_call Hexec; [|run_done Hexec; discriminate].
    remote_call Hexec.
    + remote_call Hexec; [|run_done Hexec; discriminate].
      remote_call Hexec; [|run_done Hexec; discriminate].
      rewrite exec_call, Read_exec in Hexec. cbn [State.d State.trace] in Hexec.
      rewrite Hid in Hexec. cbv zeta in Hexec.
      destruct (API.GetVolume _ _ _ _) as [got|e] in Hexec;
        [|destruct (is404Error e)]; run_done Hexec; discriminate.
    + run_done Hexec. cbn in Hfirst. inversion Hfirst; subst.
      repeat split; auto. eexists [_]. reflexivity.
  - rewrite exec_ret in Hexec.
    remote_call Hexec.
    + remote_call Hexec; [|run_done Hexec; discriminate].
      remote_call Hexec; [|run_done Hexec; discriminate].
      rewrite exec_call, Read_exec in Hexec. cbn [State.d State.trace] in Hexec.
      rewrite Hid in Hexec. cbv zeta in Hexec.
      destruct (API.GetVolume _ _ _ _) as [got|e] in Hexec;
        [|destruct (is404Error e)]; run_done Hexec; discriminate.
    + run_done Hexec. cbn in Hfirst. inversion Hfirst; subst.
      repeat split; auto. exists []. reflexivity.
Qed.

End Update.

(** ** The create *)

Section Create.

Variable Meta : Type.
Variable instanceAPIWithZone : ResourceData.t -> Meta -> result (API.t * Zone).
Variable instanceAPIWithZoneAndID : Meta -> string -> result (API.t * Zone * string).
Variable newRandomName : string -> string.
Variable expandID : string -> string.

Local Abbreviation Read := (resourceScalewayInstanceVolumeRead Meta instanceAPIWithZoneAndID).
Local Abbreviation Create :=
  (resourceScalewayInstanceVolumeCreate Meta instanceAPIWithZone
     instanceAPIWithZoneAndID newRandomName expandID).
Local Abbreviation request := (createVolumeRequest newRandomName expandID).

(** A run of the create: the creation call, then the read on the resource
    data that carries the new identifier. *)
Lemma Create_exec (ctx : Context.t) (meta : Meta) (s : State.t) :
  exec (Create ctx meta) s =
  match instanceAPIWithZone (State.d s) meta with
  | Err err => (FromErr err, s)
  | Ok (api, zone) =>
      let req := request zone (State.d s) in
      let res := API.CreateVolume api (State.trace s) req [WithContext ctx] in
      let h := State.trace s ++ [CreateVolumeCall req [WithContext ctx] res] in
      match res with
      | Err err =>
          (FromErr (Errorf "couldn't create volume: " err), State.mk (State.d s) h)
      | Ok res =>
          exec (Read ctx meta)
            (State.mk (ResourceData.SetId
                         (newZonedIDString zone
                            (Volume.ID (CreateVolumeResponse.Volume_ res)))
                         (State.d s)) h)
      end
  end.
Proof.
  unfold resourceScalewayInstanceVolumeCreate.
  rewrite exec_bind. unfold getData at 1.
  destruct (instanceAPIWithZone (State.d s) meta) as [[api zone]|err]; [|reflexivity].
  unfold CreateVolume. rewrite exec_remote. cbv zeta.
  destruct (API.CreateVolume api (State.trace s) (request zone (State.d s))
              [WithContext ctx]) as [res|err]; [|reflexivity].
  rewrite exec_bind. unfold modifyData at 1. cbn [State.d State.trace].
  apply exec_call.
Qed.

(** The 64-bit product is the product itself as long as it fits. *)
Lemma mul64_gb_exact (size : Z) :
  0 <= size < 2 ^ 34 -> mul64 (uint64 size) gb = size * 2 ^ 30.
Proof.
  intros Hsize. unfold mul64, uint64, gb.
  rewrite (Z.mod_small size) by lia.
  apply Z.mod_small. lia.
Qed.

(** C3, amended.  When [size_in_gb] is given, the first call of the create is
    the creation request, and the size it carries is the 64-bit product of the
    given value and 2^30: the mathematical product when the value is in
    [0, 2^34), the product modulo 2^64 in general. *)
Theorem create_size_in_bytes (ctx : Context.t) (meta : Meta) (s s' : State.t)
    (diags : Diagnostics) (api : API.t) (zone : Zone) (size : Z) :
  instanceAPIWithZone (State.d s) meta = Ok (api, zone) ->
  ResourceData.GetOkInt Attrs.size_in_gb (State.d s) = (size, true) ->
  exec (Create ctx meta) s = (diags, s') ->
  exists req res rest,
    calls s s' = CreateVolumeCall req [WithContext ctx] res :: rest /\
    CreateVolumeRequest.Size req = Some ((size mod 2 ^ 64 * 2 ^ 30) mod 2 ^ 64) /\
    (0 <= size < 2 ^ 34 -> CreateVolumeRequest.Size req = Some (size * 2 ^ 30)).
Proof.
  intros Hzone Hsize Hexec.
  rewrite Create_exec, Hzone in Hexec. cbv zeta in Hexec.
  set (req := request zone (State.d s)) in *.
  assert (Hreq : CreateVolumeRequest.Size req = Some (mul64 (uint64 size) gb)).
  { unfold req, createVolumeRequest. cbn [CreateVolumeRequest.Size].
    rewrite Hsize. reflexivity. }
  assert (Hgoal : forall rest,
             calls s s' = CreateVolumeCall req [WithContext ctx]
                            (API.CreateVolume api (State.trace s) req [WithContext ctx])
                          :: rest ->
             exists req res rest,
               calls s s' = CreateVolumeCall req [WithContext ctx] res :: rest /\
               CreateVolumeRequest.Size req = Some ((size mod 2 ^ 64 * 2 ^ 30) mod 2 ^ 64) /\
               (0 <= size < 2 ^ 34 -> CreateVolumeRequest.Size req = Some (size * 2 ^ 30))).
  { intros rest Hcalls. exists req. do 2 eexists. split; [exact Hcalls|].
    split; [exact Hreq|]. intros Hfit. rewrite Hreq, mul64_gb_exact; auto. }
  destruct (API.CreateVolume api (State.trace s) req [WithContext ctx]) as [res|err].
  - rewrite Read_exec in Hexec. cbn [State.d State.trace] in Hexec.
    destruct (instanceAPIWithZoneAndID meta _) as [[[api' zone'] id']|err].
    + cbv zeta in Hexec.
      destruct (API.GetVolume _ _ _ _) as [got|e] in Hexec;
        [|destruct (is404Error e)]; run_done Hexec; eapply Hgoal; reflexivity.
    + run_done Hexec. eapply Hgoal. reflexivity.
  - run_done Hexec. eapply Hgoal. reflexivity.
Qed.

(** C8.  When the CreateVolume call succeeds, the create stores the identifier
    made of the zone and the id of the new volume and goes on as the read on
    that resource data: its result and its final state are those of the read.
    When the GetVolume of that read succeeds, the identifier stays and the
    observed attributes are those of the volume it fetched, whatever the
    creation answered. *)
Theorem create_then_read (ctx : Context.t) (meta : Meta) (s s' : State.t)
    (diags : Diagnostics) (api : API.t) (zone : Zone)
    (res : CreateVolumeResponse.t) :
  instanceAPIWithZone (State.d s) meta = Ok (api, zone) ->
  API.CreateVolume api (State.trace s) (request zone (State.d s)) [WithContext ctx]
    = Ok res ->
  exec (Create ctx meta) s = (diags, s') ->
  let zonedID := newZonedIDString zone (Volume.ID (CreateVolumeResponse.Volume_ res)) in
  let created :=
    State.mk (ResourceData.SetId zonedID (State.d s))
             (State.trace s ++
              [CreateVolumeCall (request zone (State.d s)) [WithContext ctx] (Ok res)]) in
  exec (Read ctx meta) created = (diags, s') /\
  forall fetch opts got,
    In (GetVolumeCall fetch opts (Ok got)) (calls created s') ->
    diags = [] /\
    ResourceData.Id (State.d s') = zonedID /\
    ResourceData.planned (State.d s')
      = observed (GetVolumeRequest.Zone_ fetch) (GetVolumeResponse.Volume_ got)
                 (ResourceData.planned (State.d s)) /\
    ResourceData.state (State.d s') = ResourceData.state (State.d s).
Proof.
  intros Hzone Hcreate Hexec zonedID created.
  rewrite Create_exec, Hzone in Hexec. cbv zeta in Hexec.
  rewrite Hcreate in Hexec. fold zonedID in Hexec. fold created in Hexec.
  split; [exact Hexec|].
  intros fetch opts got Hin.
  rewrite Read_exec in Hexec.
  destruct (instanceAPIWithZoneAndID meta (ResourceData.Id (State.d created)))
    as [[[api' zone'] id']|err].
  - cbv zeta in Hexec.
    destruct (API.GetVolume api' (State.trace created) (GetVolumeRequest.mk zone' id')
                [WithContext ctx]) as [got'|e];
      [|destruct (is404Error e)]; inversion Hexec; subst diags s'; clear Hexec;
      rewrite calls_app in Hin; destruct Hin as [Hin|[]]; inversion Hin; subst.
    repeat split; reflexivity.
  - inversion Hexec; subst diags s'; clear Hexec.
    rewrite calls_same in Hin. contradiction.
Qed.

End Create.

(** ** Runs on the simulated remote system *)

(** The identifier made by the create is read back by the simulated helper. *)
Lemma splitZonedID_newZonedIDString (zone : Zone) (id : string) :
  Sim.splitZonedID zone = None ->
  Sim.splitZonedID (newZonedIDString zone id) = Some (zone, id).
Proof.
  unfold newZonedIDString.
  induction zone as [|c zone IH]; simpl; intros Hzone.
  - reflexivity.
  - destruct (Ascii.eqb c "/"); [discriminate|].
    destruct (Sim.splitZonedID zone) as [[z i]|]; [discriminate|].
    specialize (IH eq_refl). simpl in IH. rewrite IH. reflexivity.
Qed.

(** Create a block volume of 10 GB: the read that follows shows 10 GB. *)
Example scenario_create :
  let out := exec (Sim.Create Sim.ctx0 (Sim.provider (Sim.cloud None 0 false)))
                  (Sim.fresh Sim.asIs) in
  fst out = [] /\
  Attrs.size_in_gb (ResourceData.planned (State.d (snd out))) = 10 /\
  Attrs.type (ResourceData.planned (State.d (snd out))) = "b_ssd" /\
  length (State.trace (snd out)) = 2%nat.
Proof. vm_compute. auto. Qed.

(** Grow it to 20 GB: a wait, the resize, a wait, and the read shows 20 GB. *)
Example scenario_resize :
  let out := exec (Sim.Update Sim.ctx0
                     (Sim.provider (Sim.cloud (Some Sim.blockVolume) 0 false)))
                  (Sim.resource Sim.asIs (Sim.attrs "data" "b_ssd" 20) 3) in
  fst out = [] /\
  map isWaitForVolume (calls (Sim.resource Sim.asIs (Sim.attrs "data" "b_ssd" 20) 3)
                             (snd out)) = [true; false; true; false] /\
  map isResize (calls (Sim.resource Sim.asIs (Sim.attrs "data" "b_ssd" 20) 3)
                      (snd out)) = [false; true; false; false] /\
  Attrs.size_in_gb (ResourceData.planned (State.d (snd out))) = 20.
Proof. vm_compute. auto. Qed.

(** Delete it while it is attached for two more polls: two polls, then the
    fetch that shows it free, then the delete. *)
Example scenario_delete :
  let s := Sim.resource Sim.asIs Sim.asIs 5 in
  let out := exec (Sim.Delete Sim.ctx0
                     (Sim.provider (Sim.cloud (Some Sim.blockVolume) 2 false))) s in
  fst out = [] /\
  map showsAttached (calls s (snd out)) = [true; true; false; false] /\
  map isDeleteVolume (calls s (snd out)) = [false; false; false; true].
Proof. vm_compute. auto. Qed.

(** C1 at work: a volume that stays attached uses up the three rounds of the
    deadline, and one that is freed after two polls is deleted after a fetch
    that shows it free. *)
Lemma delete_only_when_detached_witness :
  let s := Sim.resource Sim.asIs Sim.asIs 3 in
  let stuck := Sim.cloud (Some Sim.blockVolume) 9 false in
  let freed := Sim.cloud (Some Sim.blockVolume) 2 false in
  let out := exec (Sim.Delete Sim.ctx0 (Sim.provider stuck)) s in
  let out' := exec (Sim.Delete Sim.ctx0 (Sim.provider freed)) s in
  (forallb showsAttached (calls s (snd out)) = true /\
   length (calls s (snd out)) = 3%nat /\
   isTimeoutError (fst out)) /\
  (existsb isDeleteVolume (calls s (snd out')) = true /\
   forall pre req opts r post,
     calls s (snd out') = pre ++ DeleteVolumeCall req opts r :: post ->
     exists pre' resp,
       pre = pre' ++
             [GetVolumeCall
                (GetVolumeRequest.mk (DeleteVolumeRequest.Zone_ req)
                                     (DeleteVolumeRequest.VolumeID req))
                [] (Ok resp)] /\
       forallb showsAttached pre' = true /\
       Volume.Server (GetVolumeResponse.Volume_ resp) = None /\
       post = []).
Proof.
  intros s stuck freed out out'. split.
  - split; [reflexivity|].
    exact (proj2 (delete_only_when_detached Sim.Meta Sim.instanceAPIWithZoneAndID
                    Sim.ctx0 (Sim.provider stuck) s (snd out) (fst out)
                    (surjective_pairing out))
                 stuck "fr-par-1" "vol-1" eq_refl eq_refl).
  - split; [reflexivity|].
    exact (proj1 (delete_only_when_detached Sim.Meta Sim.instanceAPIWithZoneAndID
                    Sim.ctx0 (Sim.provider freed) s (snd out') (fst out')
                    (surjective_pairing out'))).
Defined.

(** C5 at work: the volume is gone, or the remote system is unavailable. *)
Lemma delete_fetch_failure_witness :
  let s := Sim.resource Sim.asIs Sim.asIs 3 in
  let fetch := GetVolumeRequest.mk "fr-par-1" "vol-1" in
  let out := exec (Sim.Delete Sim.ctx0 (Sim.provider (Sim.cloud None 0 false))) s in
  let out' := exec (Sim.Delete Sim.ctx0 (Sim.provider (Sim.failing Sim.unavailable))) s in
  (In (GetVolumeCall fetch [] (Err Sim.notFound)) (calls s (snd out)) /\
   existsb isDeleteVolume (calls s (snd out)) = false /\
   fst out = []) /\
  (In (GetVolumeCall fetch [] (Err Sim.unavailable)) (calls s (snd out')) /\
   existsb isDeleteVolume (calls s (snd out')) = false /\
   fst out' = FromErr Sim.unavailable).
Proof.
  intros s fetch out out'. split.
  - split; [left; reflexivity|].
    exact (proj2 (delete_fetch_failure Sim.Meta Sim.instanceAPIWithZoneAndID Sim.ctx0
                    (Sim.provider (Sim.cloud None 0 false)) s (snd out) (fst out)
                    (surjective_pairing out)
                    fetch [] Sim.notFound (or_introl eq_refl))).
  - split; [left; reflexivity|].
    exact (proj2 (delete_fetch_failure Sim.Meta Sim.instanceAPIWithZoneAndID Sim.ctx0
                    (Sim.provider (Sim.failing Sim.unavailable)) s (snd out') (fst out')
                    (surjective_pairing out')
                    fetch [] Sim.unavailable (or_introl eq_refl))).
Defined.

(** C4 at work: a read of a volume that is gone, and a read while the remote
    system is unavailable. *)
Lemma read_get_volume_fails_witness :
  let s := Sim.resource Sim.asIs Sim.asIs 3 in
  let out := exec (Sim.Read Sim.ctx0 (Sim.provider (Sim.cloud None 0 false))) s in
  let out' := exec (Sim.Read Sim.ctx0 (Sim.provider (Sim.failing Sim.unavailable))) s in
  (fst out = [] /\ ResourceData.Id (State.d (snd out)) = "") /\
  (fst out' = FromErr (errorString "couldn't read volume: service unavailable") /\
   State.d (snd out') = State.d s).
Proof.
  intros s out out'. split.
  - destruct (read_get_volume_fails Sim.Meta Sim.instanceAPIWithZoneAndID Sim.ctx0
                (Sim.provider (Sim.cloud None 0 false)) s (snd out) (fst out)
                (Sim.cloud None 0 false) "fr-par-1" "vol-1" Sim.notFound
                eq_refl eq_refl (surjective_pairing out))
      as (_ & Hgone & _).
    destruct (Hgone eq_refl) as (Hdiags & _ & _ & Hid). exact (conj Hdiags Hid).
  - destruct (read_get_volume_fails Sim.Meta Sim.instanceAPIWithZoneAndID Sim.ctx0
                (Sim.provider (Sim.failing Sim.unavailable)) s (snd out') (fst out')
                (Sim.failing Sim.unavailable) "fr-par-1" "vol-1" Sim.unavailable
                eq_refl eq_refl (surjective_pairing out'))
      as (_ & _ & Hfail).
    destruct (Hfail eq_refl) as (Hdiags & _ & Hd). exact (conj Hdiags Hd).
Defined.

(** C2 as stated fails: when the name changes too, the rename is issued before
    the smaller size is refused. *)
Lemma update_size_down_counterexample :
  let s := Sim.resource (Sim.attrs "data" "b_ssd" 20) (Sim.attrs "backup" "b_ssd" 10) 3 in
  let api := Sim.cloud (Some (Sim.volume "data" "b_ssd" 20)) 0 false in
  let out := exec (Sim.Update Sim.ctx0 (Sim.provider api)) s in
  Attrs.size_in_gb (ResourceData.planned (State.d s))
    < Attrs.size_in_gb (ResourceData.state (State.d s)) /\
  fst out = noResizeDown /\
  calls s (snd out) =
    [UpdateVolumeCall (UpdateVolumeRequest.mk "fr-par-1" "vol-1" (Some "backup") None)
       [WithContext Sim.ctx0]
       (Ok (UpdateVolumeResponse.mk (Sim.volume "backup" "b_ssd" 20)))] /\
  calls s (snd out) <> [].
Proof.
  intros s api out. split; [reflexivity|]. split; [reflexivity|].
  split; [reflexivity|]. discriminate.
Qed.

(** C2, amended, at work: with the name unchanged nothing is called; with the
    name changed the rename is the only call. *)
Lemma update_size_down_witness :
  let s := Sim.resource (Sim.attrs "data" "b_ssd" 20) (Sim.attrs "data" "b_ssd" 10) 3 in
  let s1 := Sim.resource (Sim.attrs "data" "b_ssd" 20) (Sim.attrs "backup" "b_ssd" 10) 3 in
  let api := Sim.cloud (Some (Sim.volume "data" "b_ssd" 20)) 0 false in
  let out := exec (Sim.Update Sim.ctx0 (Sim.provider api)) s in
  let out1 := exec (Sim.Update Sim.ctx0 (Sim.provider api)) s1 in
  (calls s (snd out) = [] /\ ValidationError (fst out)) /\
  (HasError (fst out1) = true /\
   existsb isResizeRelated (calls s1 (snd out1)) = false /\
   State.d (snd out1) = State.d s1 /\
   length (calls s1 (snd out1)) = 1%nat).
Proof.
  intros s s1 api out out1. split.
  - destruct (update_size_down Sim.Meta Sim.instanceAPIWithZoneAndID
                Sim.DefaultWaitRetryInterval Sim.ctx0 (Sim.provider api) s (snd out)
                (fst out) eq_refl (surjective_pairing out))
      as (_ & _ & _ & Hrun).
    exact (proj1 (Hrun api "fr-par-1" "vol-1" eq_refl) eq_refl).
  - destruct (update_size_down Sim.Meta Sim.instanceAPIWithZoneAndID
                Sim.DefaultWaitRetryInterval Sim.ctx0 (Sim.provider api) s1 (snd out1)
                (fst out1) eq_refl (surjective_pairing out1))
      as (Herr & Hcalls & Hd & _).
    repeat split; assumption || reflexivity.
Defined.

(** C7 as stated fails: when the name changes too and the rename fails, the
    update ends on the error of the rename and not on a validation error. *)
Lemma update_size_of_non_block_volume_counterexample :
  let s := Sim.resource (Sim.attrs "data" "l_ssd" 10) (Sim.attrs "backup" "l_ssd" 20) 3 in
  let api := Sim.cloud (Some Sim.localVolume) 0 true in
  let out := exec (Sim.Update Sim.ctx0 (Sim.provider api)) s in
  ResourceData.HasChangeInt Attrs.size_in_gb (State.d s) = true /\
  ResourceData.Get Attrs.type (State.d s) <> VolumeVolumeTypeBSSD /\
  fst out = FromErr (errorString "couldn't update volume: permission denied") /\
  ~ ValidationError (fst out).
Proof.
  intros s api out. split; [reflexivity|]. split; [discriminate|].
  split; [reflexivity|]. intros [H|H]; discriminate H.
Qed.

(** C7, amended, at work: the size of a local volume grows, with the name
    unchanged and with a rename that fails. *)
Lemma update_size_of_non_block_volume_witness :
  let s := Sim.resource (Sim.attrs "data" "l_ssd" 10) (Sim.attrs "data" "l_ssd" 20) 3 in
  let s1 := Sim.resource (Sim.attrs "data" "l_ssd" 10) (Sim.attrs "backup" "l_ssd" 20) 3 in
  let api := Sim.cloud (Some Sim.localVolume) 0 true in
  let out := exec (Sim.Update Sim.ctx0 (Sim.provider api)) s in
  let out1 := exec (Sim.Update Sim.ctx0 (Sim.provider api)) s1 in
  (calls s (snd out) = [] /\ fst out = onlyBlockResized) /\
  (HasError (fst out1) = true /\
   existsb isResizeRelated (calls s1 (snd out1)) = false /\
   State.d (snd out1) = State.d s1).
Proof.
  intros s s1 api out out1. split.
  - destruct (update_size_of_non_block_volume Sim.Meta Sim.instanceAPIWithZoneAndID
                Sim.DefaultWaitRetryInterval Sim.ctx0 (Sim.provider api) s (snd out)
                (fst out) eq_refl ltac:(discriminate) (surjective_pairing out))
      as (_ & _ & _ & Hrun).
    exact (proj1 (Hrun api "fr-par-1" "vol-1" eq_refl) eq_refl).
  - exact (let H := update_size_of_non_block_volume Sim.Meta Sim.instanceAPIWithZoneAndID
                      Sim.DefaultWaitRetryInterval Sim.ctx0 (Sim.provider api) s1
                      (snd out1) (fst out1) eq_refl ltac:(discriminate)
                      (surjective_pairing out1) in
           conj (proj1 H) (conj (proj1 (proj2 H)) (proj1 (proj2 (proj2 H))))).
Defined.

(** C6 at work: the volume is in a transient state when a block volume grows
    from 10 to 20 GB, so the first wait fails. *)
Lemma update_first_wait_fails_witness :
  let s := Sim.resource Sim.asIs (Sim.attrs "data" "b_ssd" 20) 3 in
  let api := Sim.cloud (Some Sim.blockVolume) 0 true in
  let out := exec (Sim.Update Sim.ctx0 (Sim.provider api)) s in
  let wait := WaitForVolumeRequest.mk "vol-1" "fr-par-1" Sim.DefaultWaitRetryInterval in
  let transient := errorString "volume is in a transient state" in
  hd_error (filter isWaitForVolume (calls s (snd out)))
    = Some (WaitForVolumeCall wait [WithContext Sim.ctx0] (Err transient)) /\
  fst out = FromErr transient /\
  existsb isResize (calls s (snd out)) = false /\
  State.d (snd out) = State.d s.
Proof.
  intros s api out wait transient. split; [reflexivity|].
  destruct (update_first_wait_fails Sim.Meta Sim.instanceAPIWithZoneAndID
              Sim.DefaultWaitRetryInterval Sim.ctx0 (Sim.provider api) s (snd out)
              (fst out) eq_refl eq_refl ltac:(discriminate) (surjective_pairing out)
              wait [WithContext Sim.ctx0] transient eq_refl)
    as (Hdiags & _ & Hresize & _ & Hd).
  exact (conj Hdiags (conj Hresize Hd)).
Defined.

(** C10 at work: nothing changed, the update is the one fetch of the read. *)
Lemma update_nothing_changed_witness :
  let s := Sim.resource Sim.asIs Sim.asIs 3 in
  let api := Sim.cloud (Some Sim.blockVolume) 0 false in
  let out := exec (Sim.Update Sim.ctx0 (Sim.provider api)) s in
  exec (Sim.Read Sim.ctx0 (Sim.provider api)) s = (fst out, snd out) /\
  existsb isMutatingOrWait (calls s (snd out)) = false /\
  exists res,
    calls s (snd out) =
      [GetVolumeCall (GetVolumeRequest.mk "fr-par-1" "vol-1") [WithContext Sim.ctx0] res].
Proof.
  intros s api out.
  exact (update_nothing_changed Sim.Meta Sim.instanceAPIWithZoneAndID
           Sim.DefaultWaitRetryInterval Sim.ctx0 (Sim.provider api) s (snd out) (fst out)
           eq_refl eq_refl (surjective_pairing out)).
Defined.

(** C3 as stated fails: 2^34 GB times 2^30 is 2^64, which a [uint64] holds as
    zero. *)
Lemma create_size_in_bytes_counterexample :
  let s := Sim.fresh (Sim.attrs "data" "b_ssd" (2 ^ 34)) in
  let api := Sim.cloud None 0 false in
  let out := exec (Sim.Create Sim.ctx0 (Sim.provider api)) s in
  ResourceData.GetOkInt Attrs.size_in_gb (State.d s) = (2 ^ 34, true) /\
  exists req res rest,
    calls s (snd out) = CreateVolumeCall req [WithContext Sim.ctx0] res :: rest /\
    CreateVolumeRequest.Size req = Some 0 /\
    CreateVolumeRequest.Size req <> Some (2 ^ 34 * 2 ^ 30).
Proof.
  intros s api out. split; [reflexivity|].
  do 3 eexists. split; [vm_compute; reflexivity|].
  split; [reflexivity | discriminate].
Qed.

(** C3, amended, at work: 10 GB are sent as 10 * 2^30 bytes. *)
Lemma create_size_in_bytes_witness :
  let s := Sim.fresh Sim.asIs in
  let api := Sim.cloud None 0 false in
  let out := exec (Sim.Create Sim.ctx0 (Sim.provider api)) s in
  ResourceData.GetOkInt Attrs.size_in_gb (State.d s) = (10, true) /\
  exists req res rest,
    calls s (snd out) = CreateVolumeCall req [WithContext Sim.ctx0] res :: rest /\
    CreateVolumeRequest.Size req = Some (10 * 2 ^ 30).
Proof.
  intros s api out. split; [reflexivity|].
  destruct (create_size_in_bytes Sim.Meta Sim.instanceAPIWithZone
              Sim.instanceAPIWithZoneAndID Sim.newRandomName Sim.expandID Sim.ctx0
              (Sim.provider api) s (snd out) (fst out) api "fr-par-1" 10
              eq_refl eq_refl (surjective_pairing out))
    as (req & res & rest & Hcalls & _ & Hsize).
  exists req, res, rest. split; [exact Hcalls|]. apply Hsize. lia.
Defined.

(** C8 at work: the creation answers with the id alone, and the name, the
    type and the size of the final state are those of the volume that the read
    fetched. *)
Lemma create_then_read_witness :
  let s := Sim.fresh (Sim.attrs "" "b_ssd" 10) in
  let out := exec (Sim.Create Sim.ctx0 (Sim.provider Sim.terse)) s in
  fst out = [] /\
  ResourceData.Id (State.d (snd out)) = "fr-par-1/vol-1" /\
  ResourceData.planned (State.d (snd out))
    = observed "fr-par-1" Sim.blockVolume (ResourceData.planned (State.d s)) /\
  Attrs.name (ResourceData.planned (State.d (snd out))) = "data".
Proof.
  intros s out.
  destruct (create_then_read Sim.Meta Sim.instanceAPIWithZone
              Sim.instanceAPIWithZoneAndID Sim.newRandomName Sim.expandID Sim.ctx0
              (Sim.provider Sim.terse) s (snd out) (fst out) Sim.terse "fr-par-1"
              (CreateVolumeResponse.mk (Volume.mk "vol-1" "" "" "" "" 0 None))
              eq_refl eq_refl (surjective_pairing out))
    as (_ & Hread).
  destruct (Hread (GetVolumeRequest.mk "fr-par-1" "vol-1") [WithContext Sim.ctx0]
              (GetVolumeResponse.mk Sim.blockVolume) (or_introl eq_refl))
    as (Hdiags & Hid & Hplanned & _).
  refine (conj Hdiags (conj Hid (conj Hplanned _))).
  rewrite Hplanned. reflexivity.
Defined.

(** ** Every run has its shape *)

Lemma calls_of_trace (s s' : State.t) (evs : list Event) :
  State.trace s' = State.trace s ++ evs -> calls s s' = evs.
Proof.
  intros Htrace. destruct s' as [d' t']. simpl in Htrace. subst t'.
  apply calls_app.
Qed.

(** Taking a run of the update or of the create apart into its cases. *)
Ltac run_cases :=
  repeat match goal with
         | H : UpdateRun _ _ _ _ _ _ _ _ |- _ => inversion H; clear H; subst
         | H : CreateRun _ _ _ _ _ _ _ _ |- _ => inversion H; clear H; subst
         | H : RenameStep _ _ _ _ _ _ _ |- _ => inversion H; clear H; subst
         | H : SizeStep _ _ _ _ _ _ _ _ |- _ => inversion H; clear H; subst
         | H : ReadStep _ _ _ _ _ _ _ |- _ => inversion H; clear H; subst
         end.

(** The call at a position of a list of calls that is known. *)
Ltac at_position H i :=
  repeat (destruct i as [|i]; cbn [nth_error] in H; try discriminate H).

(** A size change that passes the two checks of the update. *)
Lemma sizeChange_permitted (d : ResourceData.t) :
  ResourceData.HasChangeInt Attrs.size_in_gb d = true ->
  sizeChangeRejected d = None ->
  ResourceData.Get Attrs.type d = VolumeVolumeTypeBSSD /\
  Attrs.size_in_gb (ResourceData.state d) < Attrs.size_in_gb (ResourceData.planned d).
Proof.
  unfold ResourceData.HasChangeInt, sizeChangeRejected. intros Hchange Hrej.
  destruct (String.eqb_spec (ResourceData.Get Attrs.type d) VolumeVolumeTypeBSSD)
    as [Htype|Htype]; [|discriminate].
  cbn [negb] in Hrej.
  destruct (Z.gtb_spec (Attrs.size_in_gb (ResourceData.state d))
                       (Attrs.size_in_gb (ResourceData.planned d))); [discriminate|].
  apply negb_true_iff, Z.eqb_neq in Hchange. split; [exact Htype | lia].
Qed.

(** ** More on the polling loop of the delete *)

Section DeleteLoopResults.

Variables (ctx : Context.t) (zone : Zone) (id : string).

(** A delete call is issued once, and the loop ends with what it answered. *)
Lemma DeleteRun_result_of_delete rounds last evs res :
  DeleteRun ctx zone id rounds last evs res ->
  forall req opts r,
    In (DeleteVolumeCall req opts r) evs ->
    res = r /\ length (filter isDeleteVolume evs) = 1%nat.
Proof.
  induction 1 as [last | rounds last err H404 | rounds last err H404
                  | rounds last resp res Hfree
                  | rounds last resp server evs res Hbusy Hrun IH];
    intros req opts r Hin; simpl in Hin.
  - contradiction.
  - destruct Hin as [He|[]]. discriminate.
  - destruct Hin as [He|[]]. discriminate.
  - destruct Hin as [He|[He|[]]]; [discriminate|]. inversion He; subst. auto.
  - destruct Hin as [He|Hin]; [discriminate|]. simpl. eauto.
Qed.

(** The loop ends with success only on a fetch that reports not-found or on a
    delete call that succeeded. *)
Lemma DeleteRun_success rounds last evs res :
  DeleteRun ctx zone id rounds last evs res ->
  res = None ->
  exists pre,
    (exists err, evs = pre ++ [GetVolumeCall (GetVolumeRequest.mk zone id) [] (Err err)] /\
                 is404Error err = true) \/
    evs = pre ++ [DeleteVolumeCall (DeleteVolumeRequest.mk zone id) [WithContext ctx] None].
Proof.
  induction 1 as [last | rounds last err H404 | rounds last err H404
                  | rounds last resp res Hfree
                  | rounds last resp server evs res Hbusy Hrun IH];
    intros Hres; try discriminate.
  - exists []. left. exists err. auto.
  - subst res. exists [GetVolumeCall (GetVolumeRequest.mk zone id) [] (Ok resp)].
    right. reflexivity.
  - destruct (IH Hres) as (pre & [(err & -> & H404) | ->]);
      exists (GetVolumeCall (GetVolumeRequest.mk zone id) [] (Ok resp) :: pre);
      [left; exists err; auto | right; reflexivity].
Qed.

(** A fetch that shows the volume free is followed by the delete call, which
    ends the loop. *)
Lemma DeleteRun_free_fetch rounds last evs res :
  DeleteRun ctx zone id rounds last evs res ->
  forall pre fetch opts resp post,
    evs = pre ++ GetVolumeCall fetch opts (Ok resp) :: post ->
    Volume.Server (GetVolumeResponse.Volume_ resp) = None ->
    post = [DeleteVolumeCall (DeleteVolumeRequest.mk zone id) [WithContext ctx] res].
Proof.
  induction 1 as [last | rounds last err H404 | rounds last err H404
                  | rounds last resp res Hfree
                  | rounds last resp server evs res Hbusy Hrun IH];
    intros pre fetch opts resp' post Heq Hnone.
  - destruct pre; discriminate.
  - apply split_one in Heq. destruct Heq as (_ & He & _). discriminate.
  - apply split_one in Heq. destruct Heq as (_ & He & _). discriminate.
  - apply split_two in Heq.
    destruct Heq as [(_ & _ & ->) | (_ & He & _)]; [reflexivity | discriminate].
  - destruct pre as [|e pre]; simpl in Heq; inversion Heq as [[He Hrest]]; subst.
    + rewrite Hbusy in Hnone. discriminate.
    + eapply IH; eauto.
Qed.

(** Every fetch of the loop asks for the volume of the identifier, with no
    request option. *)
Lemma DeleteRun_fetch_request rounds last evs res :
  DeleteRun ctx zone id rounds last evs res ->
  forall pre fetch opts answer post,
    evs = pre ++ GetVolumeCall fetch opts answer :: post ->
    fetch = GetVolumeRequest.mk zone id /\ opts = [].
Proof.
  induction 1 as [last | rounds last err H404 | rounds last err H404
                  | rounds last resp res Hfree
                  | rounds last resp server evs res Hbusy Hrun IH];
    intros pre fetch opts answer post Heq.
  - destruct pre; discriminate.
  - apply split_one in Heq. destruct Heq as (_ & He & _). inversion He. auto.
  - apply split_one in Heq. destruct Heq as (_ & He & _). inversion He. auto.
  - apply split_two in Heq.
    destruct Heq as [(_ & He & _) | (_ & He & _)]; [|discriminate].
    inversion He. auto.
  - destruct pre as [|e pre]; simpl in Heq; inversion Heq; subst; eauto.
Qed.

(** A loop that has a round left begins with a fetch. *)
Lemma DeleteRun_first_fetch rounds last evs res :
  DeleteRun ctx zone id (S rounds) last evs res ->
  exists answer rest, evs = GetVolumeCall (GetVolumeRequest.mk zone id) [] answer :: rest.
Proof.
  inversion 1; subst; eauto.
Qed.

End DeleteLoopResults.

(** The product of Create and the quotient of Read undo each other as long as
    the product fits in 64 bits. *)
Lemma size_in_gb_round_trip (n : Z) :
  0 <= n < 2 ^ 34 -> int (mul64 (uint64 n) gb / scw_GB) = n.
Proof.
  intros Hn. rewrite mul64_gb_exact by exact Hn.
  unfold scw_GB, int. rewrite Z.div_mul by lia.
  rewrite Z.mod_small by lia. lia.
Qed.

Section Runs.

Variable Meta : Type.
Variable instanceAPIWithZone : ResourceData.t -> Meta -> result (API.t * Zone).
Variable instanceAPIWithZoneAndID : Meta -> string -> result (API.t * Zone * string).
Variable newRandomName : string -> string.
Variable expandID : string -> string.
Variable DefaultWaitRetryInterval : option Z.

Local Abbreviation Read := (resourceScalewayInstanceVolumeRead Meta instanceAPIWithZoneAndID).
Local Abbreviation Update :=
  (resourceScalewayInstanceVolumeUpdate Meta instanceAPIWithZoneAndID
     DefaultWaitRetryInterval).
Local Abbreviation Create :=
  (resourceScalewayInstanceVolumeCreate Meta instanceAPIWithZone
     instanceAPIWithZoneAndID newRandomName expandID).
Local Abbreviation Delete := (resourceScalewayInstanceVolumeDelete Meta instanceAPIWithZoneAndID).

Lemma Read_run (ctx : Context.t) (meta : Meta) (s s' : State.t) (diags : Diagnostics)
    (api : API.t) (zone : Zone) (id : string) :
  instanceAPIWithZoneAndID meta (ResourceData.Id (State.d s)) = Ok (api, zone, id) ->
  exec (Read ctx meta) s = (diags, s') ->
  exists evs,
    State.trace s' = State.trace s ++ evs /\
    ReadStep ctx zone id (State.d s) evs diags (State.d s').
Proof.
  intros Hid Hexec. rewrite Read_exec, Hid in Hexec. cbv zeta in Hexec.
  destruct (API.GetVolume api (State.trace s) (GetVolumeRequest.mk zone id)
              [WithContext ctx]) as [got|err];
    [|destruct (is404Error err) eqn:H404];
    inversion Hexec; subst diags s'; clear Hexec;
    eexists; (split; [reflexivity|]); constructor; assumption.
Qed.

Lemma Update_run (ctx : Context.t) (meta : Meta) (s s' : State.t) (diags : Diagnostics)
    (api : API.t) (zone : Zone) (id : string) :
  instanceAPIWithZoneAndID meta (ResourceData.Id (State.d s)) = Ok (api, zone, id) ->
  exec (Update ctx meta) s = (diags, s') ->
  exists evs,
    State.trace s' = State.trace s ++ evs /\
    UpdateRun ctx DefaultWaitRetryInterval zone id (State.d s) evs diags (State.d s').
Proof.
  intros Hid Hexec.
  unfold resourceScalewayInstanceVolumeUpdate in Hexec.
  rewrite exec_bind in Hexec. unfold getData at 1 in Hexec. rewrite Hid in Hexec.
  unfold UpdateVolume, WaitForVolume, ResourceData.GetChange in Hexec.
  fold (renameRequest zone id (State.d s)) in Hexec.
  fold (resizeRequest zone id (State.d s)) in Hexec.
  fold (waitRequest DefaultWaitRetryInterval zone id) in Hexec.
  assert (Hrej : sizeChangeRejected (State.d s) =
                 if negb (ResourceData.Get Attrs.type (State.d s)
                          =? VolumeVolumeTypeBSSD)%string
                 then Some onlyBlockResized
                 else if Attrs.size_in_gb (ResourceData.state (State.d s))
                         >? Attrs.size_in_gb (ResourceData.planned (State.d s))
                      then Some noResizeDown else None) by reflexivity.
  destruct (ResourceData.HasChangeString Attrs.name (State.d s)) eqn:Hname;
    [remote_call Hexec | rewrite exec_ret in Hexec].
  2:{ inversion Hexec; subst diags s'; clear Hexec. cbn [State.d State.trace].
      eexists. split; [reflexivity|]. apply UpdateRun_name. constructor. assumption. }
  all: destruct (ResourceData.HasChangeInt Attrs.size_in_gb (State.d s)) eqn:Hsize;
    [destruct (negb _) eqn:Htype;
     [rewrite exec_Return in Hexec
     |destruct (_ >? _) eqn:Hdown;
      [rewrite exec_Return in Hexec
      |remote_call Hexec;
       [remote_call Hexec; [remote_call Hexec|]|]]]
    |rewrite exec_ret in Hexec].
  all: try (rewrite exec_call in Hexec;
            match type of Hexec with
            | exec _ ?s1 = _ =>
                destruct (Read_run ctx meta s1 s' diags api zone id Hid Hexec)
                  as (evs & Htrace & Hread)
            end;
            cbn [State.d State.trace] in *;
            rewrite Htrace, <- ?app_assoc; cbn [app];
            eexists; (split; [reflexivity|]);
            eapply UpdateRun_read;
            [econstructor; eassumption | econstructor; eassumption | exact Hread]).
  all: inversion Hexec; subst diags s'; clear Hexec;
    cbn [State.d State.trace]; rewrite <- ?app_assoc; cbn [app];
    first [eexists; split; [reflexivity|]
          |exists []; split; [symmetry; apply app_nil_r|]];
    (eapply UpdateRun_size; [econstructor; eassumption|]);
    econstructor; eassumption.
Qed.

Lemma Create_run (ctx : Context.t) (meta : Meta) (s s' : State.t) (diags : Diagnostics)
    (api : API.t) (zone : Zone) :
  instanceAPIWithZone (State.d s) meta = Ok (api, zone) ->
  exec (Create ctx meta) s = (diags, s') ->
  exists evs,
    State.trace s' = State.trace s ++ evs /\
    CreateRun ctx (instanceAPIWithZoneAndID meta)
      (createVolumeRequest newRandomName expandID zone (State.d s)) zone (State.d s)
      evs diags (State.d s').
Proof.
  intros Hzone Hexec. rewrite Create_exec, Hzone in Hexec. cbv zeta in Hexec.
  destruct (API.CreateVolume api (State.trace s) _ [WithContext ctx]) as [res|err].
  - destruct (instanceAPIWithZoneAndID meta
                (newZonedIDString zone (Volume.ID (CreateVolumeResponse.Volume_ res))))
      as [[[api' zone'] id']|err] eqn:Hid.
    + match type of Hexec with
      | exec _ ?s1 = _ =>
          destruct (Read_run ctx meta s1 s' diags api' zone' id' Hid Hexec)
            as (evs & Htrace & Hread)
      end.
      cbn [State.d State.trace] in *. rewrite Htrace, <- app_assoc. cbn [app].
      eexists. split; [reflexivity|]. eapply CreateRun_read; eassumption.
    + rewrite Read_exec in Hexec. cbn [State.d State.trace ResourceData.Id
                                       ResourceData.SetId] in Hexec.
      rewrite Hid in Hexec. inversion Hexec; subst diags s'; clear Hexec.
      eexists. split; [reflexivity|]. apply CreateRun_unresolved. exact Hid.
  - inversion Hexec; subst diags s'; clear Hexec.
    eexists. split; [reflexivity|]. constructor.
Qed.

Lemma Update_unresolved (ctx : Context.t) (meta : Meta) (s : State.t) (err : error) :
  instanceAPIWithZoneAndID meta (ResourceData.Id (State.d s)) = Err err ->
  exec (Update ctx meta) s = (FromErr err, s).
Proof.
  intros Hid. unfold resourceScalewayInstanceVolumeUpdate.
  rewrite exec_bind. unfold getData at 1. rewrite Hid. reflexivity.
Qed.

Lemma Create_unresolved (ctx : Context.t) (meta : Meta) (s : State.t) (err : error) :
  instanceAPIWithZone (State.d s) meta = Err err ->
  exec (Create ctx meta) s = (FromErr err, s).
Proof.
  intros Hzone. rewrite Create_exec, Hzone. reflexivity.
Qed.

(** When the helper that resolves the API handle fails, each of the four
    functions returns that failure as its error, issues no remote call and
    leaves the resource data as it was. *)
Theorem unresolved_handle (ctx : Context.t) (meta : Meta) (s : State.t) (err : error) :
  (instanceAPIWithZone (State.d s) meta = Err err ->
   exec (Create ctx meta) s = (FromErr err, s)) /\
  (instanceAPIWithZoneAndID meta (ResourceData.Id (State.d s)) = Err err ->
   exec (Read ctx meta) s = (FromErr err, s) /\
   exec (Update ctx meta) s = (FromErr err, s) /\
   exec (Delete ctx meta) s = (FromErr err, s)).
Proof.
  split.
  - apply Create_unresolved.
  - intros Hid. split; [|split].
    + rewrite Read_exec, Hid. reflexivity.
    + apply Update_unresolved. exact Hid.
    + pose proof (Delete_exec Meta instanceAPIWithZoneAndID ctx meta s) as Hrun.
      rewrite Hid in Hrun. exact Hrun.
Qed.

(** A read whose fetch succeeds returns no diagnostic and issues that one
    call, with the context of the caller.  It overwrites the seven observed
    attributes with those of the fetched volume (the zone with the one of the
    identifier, the server with the empty string when there is none) and keeps
    the identifier, the prior state, the deadline and the two source
    attributes. *)
Theorem read_found (ctx : Context.t) (meta : Meta) (s s' : State.t)
    (diags : Diagnostics) (api : API.t) (zone : Zone) (id : string)
    (got : GetVolumeResponse.t) :
  instanceAPIWithZoneAndID meta (ResourceData.Id (State.d s)) = Ok (api, zone, id) ->
  API.GetVolume api (State.trace s) (GetVolumeRequest.mk zone id) [WithContext ctx]
    = Ok got ->
  exec (Read ctx meta) s = (diags, s') ->
  let volume := GetVolumeResponse.Volume_ got in
  let old := ResourceData.planned (State.d s) in
  let new := ResourceData.planned (State.d s') in
  diags = [] /\
  calls s s' = [GetVolumeCall (GetVolumeRequest.mk zone id) [WithContext ctx] (Ok got)] /\
  ResourceData.Id (State.d s') = ResourceData.Id (State.d s) /\
  ResourceData.state (State.d s') = ResourceData.state (State.d s) /\
  ResourceData.TimeoutDelete (State.d s') = ResourceData.TimeoutDelete (State.d s) /\
  Attrs.name new = Volume.Name volume /\
  Attrs.organization_id new = Volume.Organization volume /\
  Attrs.project_id new = Volume.Project volume /\
  Attrs.zone new = zone /\
  Attrs.type new = Volume.VolumeType_ volume /\
  Attrs.size_in_gb new = int (Volume.Size volume / scw_GB) /\
  Attrs.server_id new = match Volume.Server volume with
                        | Some server => ServerSummary.ID server
                        | None => ""
                        end /\
  Attrs.from_volume_id new = Attrs.from_volume_id old /\
  Attrs.from_snapshot_id new = Attrs.from_snapshot_id old.
Proof.
  intros Hid Hget Hexec. rewrite Read_exec, Hid in Hexec. cbv zeta in Hexec.
  rewrite Hget in Hexec. inversion Hexec; subst diags s'; clear Hexec.
  cbv zeta. rewrite calls_app. cbn. repeat split; reflexivity.
Qed.

(** Reading twice is reading once: when two reads in a row fetch the same
    volume, the second one leaves the resource data as the first one left
    it. *)
Theorem read_twice (ctx : Context.t) (meta : Meta) (s s1 s2 : State.t)
    (diags1 diags2 : Diagnostics) (fetch1 fetch2 : GetVolumeRequest.t)
    (opts1 opts2 : list RequestOption) (got : GetVolumeResponse.t) :
  exec (Read ctx meta) s = (diags1, s1) ->
  exec (Read ctx meta) s1 = (diags2, s2) ->
  calls s s1 = [GetVolumeCall fetch1 opts1 (Ok got)] ->
  calls s1 s2 = [GetVolumeCall fetch2 opts2 (Ok got)] ->
  State.d s2 = State.d s1 /\ diags2 = [] /\ fetch2 = fetch1.
Proof.
  intros Hexec1 Hexec2 Hcalls1 Hcalls2.
  destruct (instanceAPIWithZoneAndID meta (ResourceData.Id (State.d s)))
    as [[[api zone] id]|err] eqn:Hid.
  - destruct (Read_run ctx meta s s1 diags1 api zone id Hid Hexec1)
      as (evs1 & Htrace1 & Hread1).
    rewrite (calls_of_trace _ _ _ Htrace1) in Hcalls1. subst evs1.
    inversion Hread1 as [got1 Hev Hdiags Hd| |]; subst.
    assert (Hid1 : instanceAPIWithZoneAndID meta (ResourceData.Id (State.d s1))
                   = Ok (api, zone, id)).
    { rewrite <- Hd. exact Hid. }
    destruct (Read_run ctx meta s1 s2 diags2 api zone id Hid1 Hexec2)
      as (evs2 & Htrace2 & Hread2).
    rewrite (calls_of_trace _ _ _ Htrace2) in Hcalls2. subst evs2.
    inversion Hread2 as [got2 Hev2 Hdiags2 Hd2| |]; subst.
    rewrite <- Hd. destruct (State.d s) as [i st pl t]. auto.
  - rewrite Read_exec, Hid in Hexec1. inversion Hexec1; subst.
    rewrite calls_same in Hcalls1. discriminate.
Qed.

(** An update that returns an error leaves the resource data as it was: the
    data changes in the final read alone, and a read that changes it returns
    no diagnostic. *)
Theorem update_error_keeps_data (ctx : Context.t) (meta : Meta) (s s' : State.t)
    (diags : Diagnostics) :
  exec (Update ctx meta) s = (diags, s') ->
  HasError diags = true ->
  State.d s' = State.d s.
Proof.
  intros Hexec Herr.
  destruct (instanceAPIWithZoneAndID meta (ResourceData.Id (State.d s)))
    as [[[api zone] id]|err] eqn:Hid.
  - destruct (Update_run ctx meta s s' diags api zone id Hid Hexec)
      as (evs & _ & Hrun).
    run_cases; try reflexivity; discriminate Herr.
  - rewrite (Update_unresolved ctx meta s err Hid) in Hexec.
    inversion Hexec. reflexivity.
Qed.

(** An update returns success only after the final read: its last call is the
    GetVolume of that read, and either the fetch succeeded and the observed
    attributes are those of the fetched volume, or it reported not-found and
    the identifier is cleared -- also after a rename or a resize that
    succeeded. *)
Theorem update_success (ctx : Context.t) (meta : Meta) (s s' : State.t)
    (diags : Diagnostics) :
  exec (Update ctx meta) s = (diags, s') ->
  diags = [] ->
  exists pre fetch res,
    calls s s' = pre ++ [GetVolumeCall fetch [WithContext ctx] res] /\
    existsb isGetVolume pre = false /\
    match res with
    | Ok got =>
        State.d s' = ResourceData.Set_
                       (observed (GetVolumeRequest.Zone_ fetch)
                                 (GetVolumeResponse.Volume_ got)) (State.d s)
    | Err err =>
        is404Error err = true /\ State.d s' = ResourceData.SetId "" (State.d s)
    end.
Proof.
  intros Hexec Hok.
  destruct (instanceAPIWithZoneAndID meta (ResourceData.Id (State.d s)))
    as [[[api zone] id]|err] eqn:Hid.
  - destruct (Update_run ctx meta s s' diags api zone id Hid Hexec)
      as (evs & Htrace & Hrun).
    rewrite (calls_of_trace _ _ _ Htrace). clear Htrace Hexec.
    run_cases; try discriminate;
      try match goal with
          | H : sizeChangeRejected _ = Some [] |- _ =>
              unfold sizeChangeRejected in H;
              repeat match type of H with
                     | (if ?c then _ else _) = _ => destruct c
                     end; discriminate H
          end;
      match goal with
      | |- exists pre fetch res, ?l = _ /\ _ =>
          exists (removelast l); do 2 eexists; (split; [reflexivity|]); cbn; auto
      end.
  - rewrite (Update_unresolved ctx meta s err Hid) in Hexec.
    inversion Hexec; subst. discriminate.
Qed.

(** Every call of an update is an UpdateVolume, a WaitForVolume or a
    GetVolume, never a creation or a deletion; each carries the context of the
    caller and nothing else, and there are at most five of them. *)
Theorem update_calls (ctx : Context.t) (meta : Meta) (s s' : State.t)
    (diags : Diagnostics) :
  exec (Update ctx meta) s = (diags, s') ->
  Forall (fun ev => options ev = [WithContext ctx] /\
                    isCreateVolume ev = false /\ isDeleteVolume ev = false)
         (calls s s') /\
  (length (calls s s') <= 5)%nat.
Proof.
  intros Hexec.
  destruct (instanceAPIWithZoneAndID meta (ResourceData.Id (State.d s)))
    as [[[api zone] id]|err] eqn:Hid.
  - destruct (Update_run ctx meta s s' diags api zone id Hid Hexec)
      as (evs & Htrace & Hrun).
    rewrite (calls_of_trace _ _ _ Htrace).
    run_cases; (split; [repeat constructor | cbn; lia]).
  - rewrite (Update_unresolved ctx meta s err Hid) in Hexec.
    inversion Hexec; subst. rewrite calls_same.
    split; [constructor | cbn; lia].
Qed.

(** The rename of an update is its first call, and it is issued only when the
    name changed.  When it fails, it is the only call: the update returns its
    failure wrapped in an error, whatever the size, and leaves the resource
    data as it was. *)
Theorem update_rename_first (ctx : Context.t) (meta : Meta) (s s' : State.t)
    (diags : Diagnostics) (api : API.t) (zone : Zone) (id : string) :
  instanceAPIWithZoneAndID meta (ResourceData.Id (State.d s)) = Ok (api, zone, id) ->
  exec (Update ctx meta) s = (diags, s') ->
  forall i req opts res,
    nth_error (calls s s') i = Some (UpdateVolumeCall req opts res) ->
    UpdateVolumeRequest.Name req <> None ->
    i = 0%nat /\
    req = renameRequest zone id (State.d s) /\
    ResourceData.HasChangeString Attrs.name (State.d s) = true /\
    forall err,
      res = Err err ->
      calls s s' = [UpdateVolumeCall req opts res] /\
      diags = FromErr (Errorf "couldn't update volume: " err) /\
      State.d s' = State.d s.
Proof.
  intros Hid Hexec i req opts res Hnth Hname.
  destruct (Update_run ctx meta s s' diags api zone id Hid Hexec)
    as (evs & Htrace & Hrun).
  rewrite (calls_of_trace _ _ _ Htrace) in *. clear Htrace Hexec.
  run_cases; at_position Hnth i;
    inversion Hnth; subst; try (exfalso; apply Hname; reflexivity);
    (split; [reflexivity|]); (split; [reflexivity|]); (split; [assumption|]);
    intros e He; inversion He; subst; auto.
Qed.

(** The resize request of an update -- an UpdateVolume that carries a size --
    is issued only for a block volume that grows, right after a WaitForVolume
    that succeeded, and it carries the planned size in bytes.  When it fails
    it is the last call and the update returns its failure wrapped in an
    error, with the resource data as it was; when it succeeds the next call
    is the second WaitForVolume. *)
Theorem update_resize_protocol (ctx : Context.t) (meta : Meta) (s s' : State.t)
    (diags : Diagnostics) (api : API.t) (zone : Zone) (id : string) :
  instanceAPIWithZoneAndID meta (ResourceData.Id (State.d s)) = Ok (api, zone, id) ->
  exec (Update ctx meta) s = (diags, s') ->
  forall i req opts res,
    nth_error (calls s s') i = Some (UpdateVolumeCall req opts res) ->
    UpdateVolumeRequest.Size req <> None ->
    let wait := waitRequest DefaultWaitRetryInterval zone id in
    req = resizeRequest zone id (State.d s) /\
    ResourceData.Get Attrs.type (State.d s) = VolumeVolumeTypeBSSD /\
    Attrs.size_in_gb (ResourceData.state (State.d s))
      < Attrs.size_in_gb (ResourceData.planned (State.d s)) /\
    (exists j v,
        i = S j /\
        nth_error (calls s s') j = Some (WaitForVolumeCall wait [WithContext ctx] (Ok v))) /\
    match res with
    | Err err =>
        nth_error (calls s s') (S i) = None /\
        diags = FromErr (Errorf "couldn't resize volume: " err) /\
        State.d s' = State.d s
    | Ok _ =>
        exists r,
          nth_error (calls s s') (S i) = Some (WaitForVolumeCall wait [WithContext ctx] r)
    end.
Proof.
  intros Hid Hexec i req opts res Hnth Hsize.
  destruct (Update_run ctx meta s s' diags api zone id Hid Hexec)
    as (evs & Htrace & Hrun).
  rewrite (calls_of_trace _ _ _ Htrace) in *. clear Htrace Hexec.
  run_cases; at_position Hnth i;
    inversion Hnth; subst; try (exfalso; apply Hsize; reflexivity);
    match goal with
    | Hc : ResourceData.HasChangeInt _ _ = true, Hr : sizeChangeRejected _ = None |- _ =>
        destruct (sizeChange_permitted _ Hc Hr) as [Htype Hgrow]
    end;
    cbv zeta; (split; [reflexivity|]); (split; [exact Htype|]);
    (split; [exact Hgrow|]); (split; [do 2 eexists; split; reflexivity|]);
    cbn [nth_error]; eauto.
Qed.


(** When the creation call fails, the create returns its failure wrapped in an
    error; the call is its only one, no identifier is stored and the resource
    data is as it was. *)
Theorem create_volume_fails (ctx : Context.t) (meta : Meta) (s s' : State.t)
    (diags : Diagnostics) (api : API.t) (zone : Zone) (err : error) :
  instanceAPIWithZone (State.d s) meta = Ok (api, zone) ->
  API.CreateVolume api (State.trace s)
    (createVolumeRequest newRandomName expandID zone (State.d s)) [WithContext ctx]
    = Err err ->
  exec (Create ctx meta) s = (diags, s') ->
  diags = FromErr (Errorf "couldn't create volume: " err) /\
  calls s s' =
    [CreateVolumeCall (createVolumeRequest newRandomName expandID zone (State.d s))
       [WithContext ctx] (Err err)] /\
  State.d s' = State.d s.
Proof.
  intros Hzone Hcreate Hexec. rewrite Create_exec, Hzone in Hexec. cbv zeta in Hexec.
  rewrite Hcreate in Hexec. inversion Hexec; subst diags s'; clear Hexec.
  rewrite calls_app. auto.
Qed.

(** Every run of the create issues the creation call first and then at most
    the fetch of the read, each with the context of the caller: never an
    update, a wait or a deletion, and no fetch after a creation that failed. *)
Theorem create_calls (ctx : Context.t) (meta : Meta) (s s' : State.t)
    (diags : Diagnostics) :
  exec (Create ctx meta) s = (diags, s') ->
  calls s s' = [] \/
  (exists req res, calls s s' = [CreateVolumeCall req [WithContext ctx] res]) \/
  (exists req res fetch got,
      calls s s' = [CreateVolumeCall req [WithContext ctx] (Ok res);
                    GetVolumeCall fetch [WithContext ctx] got]).
Proof.
  intros Hexec.
  destruct (instanceAPIWithZone (State.d s) meta) as [[api zone]|err] eqn:Hzone.
  - destruct (Create_run ctx meta s s' diags api zone Hzone Hexec)
      as (evs & Htrace & Hrun).
    rewrite (calls_of_trace _ _ _ Htrace).
    run_cases; eauto 8.
  - rewrite (Create_unresolved ctx meta s err Hzone) in Hexec.
    inversion Hexec; subst. rewrite calls_same. auto.
Qed.

(** Once the creation call has succeeded, the identifier of the new volume is
    stored and stays, unless the read finds the volume gone: then the create
    returns no diagnostic and an empty identifier.  An error of the create
    after the creation leaves the identifier stored. *)
Theorem create_identifier (ctx : Context.t) (meta : Meta) (s s' : State.t)
    (diags : Diagnostics) (api : API.t) (zone : Zone) :
  instanceAPIWithZone (State.d s) meta = Ok (api, zone) ->
  exec (Create ctx meta) s = (diags, s') ->
  forall req opts res,
    In (CreateVolumeCall req opts (Ok res)) (calls s s') ->
    let zonedID :=
      newZonedIDString zone (Volume.ID (CreateVolumeResponse.Volume_ res)) in
    (HasError diags = true -> ResourceData.Id (State.d s') = zonedID) /\
    (ResourceData.Id (State.d s') = zonedID \/
     ResourceData.Id (State.d s') = "" /\ diags = [] /\
     exists fetch err,
       calls s s' = [CreateVolumeCall req opts (Ok res);
                     GetVolumeCall fetch [WithContext ctx] (Err err)] /\
       is404Error err = true).
Proof.
  intros Hzone Hexec req opts res Hin.
  destruct (Create_run ctx meta s s' diags api zone Hzone Hexec)
    as (evs & Htrace & Hrun).
  rewrite (calls_of_trace _ _ _ Htrace) in *. clear Htrace Hexec.
  run_cases; simpl in Hin;
    repeat match goal with
           | H : _ \/ _ |- _ => destruct H
           | H : False |- _ => contradiction
           | H : CreateVolumeCall _ _ _ = CreateVolumeCall _ _ _ |- _ =>
               inversion H; clear H; subst
           | H : GetVolumeCall _ _ _ = CreateVolumeCall _ _ _ |- _ => discriminate H
           end;
    cbv zeta;
    (split; [intros Herr; try discriminate Herr; reflexivity|]);
    first [left; reflexivity | right; eauto 8].
Qed.

(** Create and read agree on the unit: when a size between 0 and 2^34 GB is
    given and the remote system reports the volume with the size in bytes that
    the creation request carried, the read that ends the create stores the
    given size again. *)
Theorem create_size_round_trip (ctx : Context.t) (meta : Meta) (s s' : State.t)
    (diags : Diagnostics) (api : API.t) (zone : Zone) (size : Z)
    (req : CreateVolumeRequest.t) (opts opts' : list RequestOption)
    (res : CreateVolumeResponse.t) (fetch : GetVolumeRequest.t)
    (got : GetVolumeResponse.t) :
  instanceAPIWithZone (State.d s) meta = Ok (api, zone) ->
  ResourceData.GetOkInt Attrs.size_in_gb (State.d s) = (size, true) ->
  0 <= size < 2 ^ 34 ->
  exec (Create ctx meta) s = (diags, s') ->
  calls s s' = [CreateVolumeCall req opts (Ok res); GetVolumeCall fetch opts' (Ok got)] ->
  CreateVolumeRequest.Size req = Some (Volume.Size (GetVolumeResponse.Volume_ got)) ->
  Attrs.size_in_gb (ResourceData.planned (State.d s')) = size.
Proof.
  intros Hzone Hsize Hfit Hexec Hcalls Hsame.
  destruct (Create_run ctx meta s s' diags api zone Hzone Hexec)
    as (evs & Htrace & Hrun).
  rewrite (calls_of_trace _ _ _ Htrace) in *. subst evs. clear Htrace Hexec.
  run_cases.
  cbn [createVolumeRequest CreateVolumeRequest.Size] in Hsame.
  rewrite Hsize in Hsame. inversion Hsame as [Hbytes].
  cbn. rewrite <- Hbytes. apply size_in_gb_round_trip. exact Hfit.
Qed.

(** C9.  In every run of the delete, each call is either a GetVolume issued
    with no request option, so without the context of the caller, or a
    DeleteVolume issued with the context of the caller.  Both calls are
    issued: when the identifier resolves and the deadline leaves a round, the
    run begins with such a GetVolume, and a fetch that shows the volume free
    of any server is followed by the DeleteVolume for the same volume, which
    carries the context of the caller. *)
Theorem delete_context_threading (ctx : Context.t) (meta : Meta)
    (s s' : State.t) (diags : Diagnostics) :
  exec (Delete ctx meta) s = (diags, s') ->
  Forall (deleteCallContext ctx) (calls s s') /\
  (forall api zone id,
      instanceAPIWithZoneAndID meta (ResourceData.Id (State.d s)) = Ok (api, zone, id) ->
      ResourceData.TimeoutDelete (State.d s) <> O ->
      exists answer rest,
        calls s s' = GetVolumeCall (GetVolumeRequest.mk zone id) [] answer :: rest) /\
  (forall pre fetch opts resp post,
      calls s s' = pre ++ GetVolumeCall fetch opts (Ok resp) :: post ->
      opts = [] /\
      (Volume.Server (GetVolumeResponse.Volume_ resp) = None ->
       exists r,
         post = [DeleteVolumeCall
                   (DeleteVolumeRequest.mk (GetVolumeRequest.Zone_ fetch)
                                           (GetVolumeRequest.VolumeID fetch))
                   [WithContext ctx] r])).
Proof.
  intros Hexec.
  pose proof (Delete_exec Meta instanceAPIWithZoneAndID ctx meta s) as Hrun.
  destruct (instanceAPIWithZoneAndID meta (ResourceData.Id (State.d s)))
    as [[[api zone] id]|e].
  - destruct Hrun as (res & evs & Hrun & Hshape).
    rewrite Hrun in Hexec. inversion Hexec; subst diags s'; clear Hexec.
    rewrite calls_app. split; [|split].
    + eapply DeleteRun_contexts; eauto.
    + intros api' zone' id' Hid Hrounds. inversion Hid; subst api' zone' id'.
      destruct (ResourceData.TimeoutDelete (State.d s)) as [|rounds];
        [contradiction|].
      eapply DeleteRun_first_fetch; eauto.
    + intros pre fetch opts resp post Heq.
      destruct (DeleteRun_fetch_request _ _ _ _ _ _ _ Hshape _ _ _ _ _ Heq)
        as [-> ->].
      split; [reflexivity|]. intros Hfree.
      rewrite (DeleteRun_free_fetch _ _ _ _ _ _ _ Hshape _ _ _ _ _ Heq Hfree).
      eexists. reflexivity.
  - rewrite Hrun in Hexec. inversion Hexec; subst diags s'; clear Hexec.
    rewrite calls_same. split; [constructor|]. split.
    + intros api zone id Hid. discriminate.
    + intros pre fetch opts resp post Heq. destruct pre; discriminate.
Qed.

(** The delete never touches the resource data: the identifier, the
    attributes and the deadline are after every run what they were before. *)
Theorem delete_keeps_data (ctx : Context.t) (meta : Meta) (s s' : State.t)
    (diags : Diagnostics) :
  exec (Delete ctx meta) s = (diags, s') ->
  State.d s' = State.d s.
Proof.
  intros Hexec.
  pose proof (Delete_exec Meta instanceAPIWithZoneAndID ctx meta s) as Hrun.
  destruct (instanceAPIWithZoneAndID meta (ResourceData.Id (State.d s)))
    as [[[api zone] id]|err].
  - destruct Hrun as (res & evs & Hrun & _). rewrite Hrun in Hexec.
    inversion Hexec. reflexivity.
  - rewrite Hrun in Hexec. inversion Hexec. reflexivity.
Qed.

(** The delete call is issued at most once and is not retried: when a run of
    the delete issues it, the run returns what the call answered, success
    for nil and the failure as an error otherwise. *)
Theorem delete_call_decides (ctx : Context.t) (meta : Meta) (s s' : State.t)
    (diags : Diagnostics) :
  exec (Delete ctx meta) s = (diags, s') ->
  forall req opts r,
    In (DeleteVolumeCall req opts r) (calls s s') ->
    diags = match r with Some err => FromErr err | None => [] end /\
    length (filter isDeleteVolume (calls s s')) = 1%nat.
Proof.
  intros Hexec req opts r Hin.
  pose proof (Delete_exec Meta instanceAPIWithZoneAndID ctx meta s) as Hrun.
  destruct (instanceAPIWithZoneAndID meta (ResourceData.Id (State.d s)))
    as [[[api zone] id]|err].
  - destruct Hrun as (res & evs & Hrun & Hshape). rewrite Hrun in Hexec.
    inversion Hexec; subst diags s'; clear Hexec. rewrite calls_app in *.
    destruct (DeleteRun_result_of_delete _ _ _ _ _ _ _ Hshape _ _ _ Hin) as [-> Hone].
    auto.
  - rewrite Hrun in Hexec. inversion Hexec; subst. rewrite calls_same in Hin.
    contradiction.
Qed.

(** The delete returns success only when its last call is a fetch that
    reports not-found or a delete call that succeeded. *)
Theorem delete_success (ctx : Context.t) (meta : Meta) (s s' : State.t)
    (diags : Diagnostics) :
  exec (Delete ctx meta) s = (diags, s') ->
  diags = [] ->
  exists pre,
    (exists fetch err,
        calls s s' = pre ++ [GetVolumeCall fetch [] (Err err)] /\
        is404Error err = true) \/
    (exists req, calls s s' = pre ++ [DeleteVolumeCall req [WithContext ctx] None]).
Proof.
  intros Hexec Hok.
  pose proof (Delete_exec Meta instanceAPIWithZoneAndID ctx meta s) as Hrun.
  destruct (instanceAPIWithZoneAndID meta (ResourceData.Id (State.d s)))
    as [[[api zone] id]|err].
  - destruct Hrun as (res & evs & Hrun & Hshape). rewrite Hrun in Hexec.
    inversion Hexec; subst diags s'; clear Hexec. rewrite calls_app.
    destruct res as [err|]; [discriminate|].
    destruct (DeleteRun_success _ _ _ _ _ _ _ Hshape eq_refl)
      as (pre & [(err & -> & H404) | ->]); exists pre; eauto.
  - rewrite Hrun in Hexec. inversion Hexec; subst. discriminate.
Qed.

(** A fetch of the delete that shows the volume free of any server is always
    followed by the delete call for the same volume, with the context of the
    caller, and that call is the last one. *)
Theorem delete_follows_free_fetch (ctx : Context.t) (meta : Meta) (s s' : State.t)
    (diags : Diagnostics) :
  exec (Delete ctx meta) s = (diags, s') ->
  forall pre fetch opts resp post,
    calls s s' = pre ++ GetVolumeCall fetch opts (Ok resp) :: post ->
    Volume.Server (GetVolumeResponse.Volume_ resp) = None ->
    exists r,
      post = [DeleteVolumeCall
                (DeleteVolumeRequest.mk (GetVolumeRequest.Zone_ fetch)
                                        (GetVolumeRequest.VolumeID fetch))
                [WithContext ctx] r].
Proof.
  intros Hexec pre fetch opts resp post Heq Hfree.
  pose proof (Delete_exec Meta instanceAPIWithZoneAndID ctx meta s) as Hrun.
  destruct (instanceAPIWithZoneAndID meta (ResourceData.Id (State.d s)))
    as [[[api zone] id]|err].
  - destruct Hrun as (res & evs & Hrun & Hshape). rewrite Hrun in Hexec.
    inversion Hexec; subst diags s'; clear Hexec. rewrite calls_app in Heq.
    pose proof (DeleteRun_free_fetch _ _ _ _ _ _ _ Hshape _ _ _ _ _ Heq Hfree) as ->.
    assert (Hfetch : fetch = GetVolumeRequest.mk zone id).
    { pose proof (DeleteRun_contexts _ _ _ _ _ _ _ Hshape) as Hall.
      clear - Hshape Heq. revert pre Heq.
      induction Hshape; intros pre Heq.
      - destruct pre; discriminate.
      - apply split_one in Heq. destruct Heq as (_ & He & _). discriminate.
      - apply split_one in Heq. destruct Heq as (_ & He & _). discriminate.
      - apply split_two in Heq.
        destruct Heq as [(_ & He & _) | (_ & He & _)]; [|discriminate].
        inversion He. reflexivity.
      - destruct pre as [|e pre]; simpl in Heq; inversion Heq; subst; eauto. }
    subst fetch. eexists. reflexivity.
  - rewrite Hrun in Hexec. inversion Hexec; subst. rewrite calls_same in Heq.
    destruct pre; discriminate.
Qed.

End Runs.

(** ** The schema and the creation request *)

(** The conflicts that the schema declares leave at most one source: when no
    attribute that is set conflicts with another one that is set, the creation
    request names at most one of the size, the base volume and the base
    snapshot. *)
Theorem create_request_one_source (Meta : Type)
    (instanceAPIWithZone : ResourceData.t -> Meta -> result (API.t * Zone))
    (instanceAPIWithZoneAndID : Meta -> string -> result (API.t * Zone * string))
    (newRandomName expandID : string -> string)
    (DefaultWaitRetryInterval : option Z)
    (organizationIDSchema projectIDSchema zoneSchema : Schema.t)
    (StringInSlice : list string -> bool -> string -> bool)
    (validationUUIDorUUIDWithLocality : string -> bool)
    (defaultInstanceVolumeDeleteTimeout : nat)
    (zone : Zone) (d : ResourceData.t) :
  conflictFree
    (Resource.Schema_
       (resourceScalewayInstanceVolume Meta instanceAPIWithZone instanceAPIWithZoneAndID
          newRandomName expandID DefaultWaitRetryInterval
          organizationIDSchema projectIDSchema zoneSchema
          StringInSlice validationUUIDorUUIDWithLocality
          defaultInstanceVolumeDeleteTimeout)) d = true ->
  (sources (createVolumeRequest newRandomName expandID zone d) <= 1)%nat.
Proof.
  unfold conflictFree, resourceScalewayInstanceVolume, Resource.Schema_.
  cbn [forallb fst snd Schema.ConflictsWith].
  intros Hfree.
  repeat (apply andb_true_iff in Hfree; destruct Hfree as [? Hfree]).
  unfold sources, createVolumeRequest.
  cbn [CreateVolumeRequest.Size CreateVolumeRequest.BaseVolume
       CreateVolumeRequest.BaseSnapshot].
  unfold isSet in *. cbn [String.eqb Ascii.eqb Bool.eqb] in *.
  destruct (ResourceData.GetOkInt Attrs.size_in_gb d) as [size [|]];
    destruct (ResourceData.GetOkString Attrs.from_volume_id d) as [volumeID [|]];
    destruct (ResourceData.GetOkString Attrs.from_snapshot_id d) as [snapshotID [|]];
    cbn in *; try discriminate;
    repeat match goal with
           | |- context [expandStringPtr ?x] => destruct (expandStringPtr x)
           end; cbn; lia.
Qed.

(** ** More runs on the simulated remote system *)

(** A resource without identifier, and a helper that finds no zone. *)
Lemma unresolved_handle_witness :
  let s := Sim.fresh Sim.asIs in
  let meta := Sim.provider (Sim.cloud None 0 false) in
  let noZone := errorString "zone is required" in
  let noID := errorString "cant parse localized id: " in
  exec (resourceScalewayInstanceVolumeCreate Sim.Meta Sim.unzoned
          Sim.instanceAPIWithZoneAndID Sim.newRandomName Sim.expandID Sim.ctx0 meta) s
    = (FromErr noZone, s) /\
  exec (Sim.Read Sim.ctx0 meta) s = (FromErr noID, s) /\
  exec (Sim.Update Sim.ctx0 meta) s = (FromErr noID, s) /\
  exec (Sim.Delete Sim.ctx0 meta) s = (FromErr noID, s).
Proof.
  intros s meta noZone noID. split.
  - exact (proj1 (unresolved_handle Sim.Meta Sim.unzoned Sim.instanceAPIWithZoneAndID
                    Sim.newRandomName Sim.expandID Sim.DefaultWaitRetryInterval
                    Sim.ctx0 meta s noZone) eq_refl).
  - exact (proj2 (unresolved_handle Sim.Meta Sim.instanceAPIWithZone
                    Sim.instanceAPIWithZoneAndID Sim.newRandomName Sim.expandID
                    Sim.DefaultWaitRetryInterval Sim.ctx0 meta s noID) eq_refl).
Defined.

(** A read over stale attributes: the seven observed ones are replaced, the base volume stays. *)
Lemma read_found_witness :
  let s := Sim.resource Sim.asIs (Sim.copyOf "fr-par-1/base") 3 in
  let api := Sim.cloud (Some Sim.blockVolume) 1 false in
  let out := exec (Sim.Read Sim.ctx0 (Sim.provider api)) s in
  fst out = [] /\
  ResourceData.planned (State.d (snd out))
    = Attrs.mk "data" "b_ssd" 10 "fr-par-1/base" "" "srv-1" "org-1" "project-1" "fr-par-1".
Proof.
  intros s api out.
  pose proof (read_found Sim.Meta Sim.instanceAPIWithZoneAndID Sim.ctx0
                (Sim.provider api) s (snd out) (fst out) api "fr-par-1" "vol-1"
                (GetVolumeResponse.mk (Sim.attach true Sim.blockVolume))
                eq_refl eq_refl (surjective_pairing out)) as H.
  split; [exact (proj1 H) | reflexivity].
Defined.

(** Two reads in a row of the same volume. *)
Lemma read_twice_witness :
  let s := Sim.resource Sim.asIs (Sim.copyOf "fr-par-1/base") 3 in
  let meta := Sim.provider Sim.terse in
  let out1 := exec (Sim.Read Sim.ctx0 meta) s in
  let out2 := exec (Sim.Read Sim.ctx0 meta) (snd out1) in
  State.d (snd out1) <> State.d s /\
  State.d (snd out2) = State.d (snd out1).
Proof.
  intros s meta out1 out2. split; [discriminate|].
  exact (proj1 (read_twice Sim.Meta Sim.instanceAPIWithZoneAndID Sim.ctx0 meta
                  s (snd out1) (snd out2) (fst out1) (fst out2)
                  (GetVolumeRequest.mk "fr-par-1" "vol-1")
                  (GetVolumeRequest.mk "fr-par-1" "vol-1")
                  [WithContext Sim.ctx0] [WithContext Sim.ctx0]
                  (GetVolumeResponse.mk Sim.blockVolume)
                  (surjective_pairing out1) (surjective_pairing out2)
                  eq_refl eq_refl)).
Defined.


(** A resize while the volume is in a transient state. *)
Lemma update_error_keeps_data_witness :
  let s := Sim.resource Sim.asIs (Sim.attrs "data" "b_ssd" 20) 3 in
  let api := Sim.cloud (Some Sim.blockVolume) 0 true in
  let out := exec (Sim.Update Sim.ctx0 (Sim.provider api)) s in
  HasError (fst out) = true /\ State.d (snd out) = State.d s.
Proof.
  intros s api out. split; [reflexivity|].
  exact (update_error_keeps_data Sim.Meta Sim.instanceAPIWithZoneAndID
           Sim.DefaultWaitRetryInterval Sim.ctx0 (Sim.provider api) s (snd out)
           (fst out) (surjective_pairing out) eq_refl).
Defined.

(** A rename with a resize: the five calls of the longest run. *)
Lemma update_calls_witness :
  let s := Sim.resource Sim.asIs (Sim.attrs "backup" "b_ssd" 20) 3 in
  let api := Sim.cloud (Some Sim.blockVolume) 0 false in
  let out := exec (Sim.Update Sim.ctx0 (Sim.provider api)) s in
  length (calls s (snd out)) = 5%nat /\
  Forall (fun ev => options ev = [WithContext Sim.ctx0] /\
                    isCreateVolume ev = false /\ isDeleteVolume ev = false)
         (calls s (snd out)).
Proof.
  intros s api out. split; [reflexivity|].
  exact (proj1 (update_calls Sim.Meta Sim.instanceAPIWithZoneAndID
                  Sim.DefaultWaitRetryInterval Sim.ctx0 (Sim.provider api) s (snd out)
                  (fst out) (surjective_pairing out))).
Defined.

(** A rename that the remote system refuses, with a resize planned too. *)
Lemma update_rename_first_witness :
  let s := Sim.resource Sim.asIs (Sim.attrs "backup" "b_ssd" 20) 3 in
  let api := Sim.cloud (Some Sim.blockVolume) 0 true in
  let out := exec (Sim.Update Sim.ctx0 (Sim.provider api)) s in
  let rename := UpdateVolumeRequest.mk "fr-par-1" "vol-1" (Some "backup") None in
  let denied := ResponseError 403 "permission denied" in
  calls s (snd out) = [UpdateVolumeCall rename [WithContext Sim.ctx0] (Err denied)] /\
  fst out = FromErr (Errorf "couldn't update volume: " denied) /\
  State.d (snd out) = State.d s.
Proof.
  intros s api out rename denied.
  exact (proj2 (proj2 (proj2
           (update_rename_first Sim.Meta Sim.instanceAPIWithZoneAndID
              Sim.DefaultWaitRetryInterval Sim.ctx0 (Sim.provider api) s (snd out)
              (fst out) api "fr-par-1" "vol-1" eq_refl (surjective_pairing out)
              0%nat rename [WithContext Sim.ctx0] (Err denied) eq_refl
              ltac:(discriminate))))
         denied eq_refl).
Defined.

(** A resize from 10 to 20 GB between its two waits. *)
Lemma update_resize_protocol_witness :
  let s := Sim.resource Sim.asIs (Sim.attrs "data" "b_ssd" 20) 3 in
  let api := Sim.cloud (Some Sim.blockVolume) 0 false in
  let out := exec (Sim.Update Sim.ctx0 (Sim.provider api)) s in
  let wait := waitRequest Sim.DefaultWaitRetryInterval "fr-par-1" "vol-1" in
  let resize := UpdateVolumeRequest.mk "fr-par-1" "vol-1" None (Some (20 * 2 ^ 30)) in
  let resized := UpdateVolumeResponse.mk (Sim.volume "data" "b_ssd" 20) in
  nth_error (calls s (snd out)) 1
    = Some (UpdateVolumeCall resize [WithContext Sim.ctx0] (Ok resized)) /\
  (exists j v,
      1%nat = S j /\
      nth_error (calls s (snd out)) j
        = Some (WaitForVolumeCall wait [WithContext Sim.ctx0] (Ok v))) /\
  (exists r,
      nth_error (calls s (snd out)) 2
        = Some (WaitForVolumeCall wait [WithContext Sim.ctx0] r)).
Proof.
  intros s api out wait resize resized. split; [reflexivity|].
  pose proof (update_resize_protocol Sim.Meta Sim.instanceAPIWithZoneAndID
                Sim.DefaultWaitRetryInterval Sim.ctx0 (Sim.provider api) s (snd out)
                (fst out) api "fr-par-1" "vol-1" eq_refl (surjective_pairing out)
                1%nat resize [WithContext Sim.ctx0] (Ok resized) eq_refl
                ltac:(discriminate)) as H.
  exact (conj (proj1 (proj2 (proj2 (proj2 H)))) (proj2 (proj2 (proj2 (proj2 H))))).
Defined.

(** A creation while the remote system is unavailable. *)
Lemma create_volume_fails_witness :
  let s := Sim.fresh Sim.asIs in
  let api := Sim.failing Sim.unavailable in
  let out := exec (Sim.Create Sim.ctx0 (Sim.provider api)) s in
  fst out = FromErr (errorString "couldn't create volume: service unavailable") /\
  calls s (snd out) =
    [CreateVolumeCall (Sim.createRequest "fr-par-1" (State.d s)) [WithContext Sim.ctx0]
       (Err Sim.unavailable)] /\
  State.d (snd out) = State.d s.
Proof.
  intros s api out.
  exact (create_volume_fails Sim.Meta Sim.instanceAPIWithZone
           Sim.instanceAPIWithZoneAndID Sim.newRandomName Sim.expandID Sim.ctx0
           (Sim.provider api) s (snd out) (fst out) api "fr-par-1" Sim.unavailable
           eq_refl eq_refl (surjective_pairing out)).
Defined.

(** A creation followed by its read. *)
Lemma create_calls_witness :
  let s := Sim.fresh Sim.asIs in
  let out := exec (Sim.Create Sim.ctx0 (Sim.provider (Sim.cloud None 0 false))) s in
  length (calls s (snd out)) = 2%nat /\
  (calls s (snd out) = [] \/
   (exists req res, calls s (snd out) = [CreateVolumeCall req [WithContext Sim.ctx0] res]) \/
   (exists req res fetch got,
       calls s (snd out) = [CreateVolumeCall req [WithContext Sim.ctx0] (Ok res);
                            GetVolumeCall fetch [WithContext Sim.ctx0] got])).
Proof.
  intros s out. split; [reflexivity|].
  exact (create_calls Sim.Meta Sim.instanceAPIWithZone Sim.instanceAPIWithZoneAndID
           Sim.newRandomName Sim.expandID Sim.ctx0
           (Sim.provider (Sim.cloud None 0 false)) s (snd out) (fst out)
           (surjective_pairing out)).
Defined.

(** A creation after which the read fails, and one after which the volume is gone. *)
Lemma create_identifier_witness :
  let s := Sim.fresh Sim.asIs in
  let down := Sim.provider (Sim.orphaning Sim.unavailable) in
  let gone := Sim.provider (Sim.orphaning Sim.notFound) in
  let out := exec (Sim.Create Sim.ctx0 down) s in
  let out' := exec (Sim.Create Sim.ctx0 gone) s in
  (HasError (fst out) = true /\
   ResourceData.Id (State.d (snd out)) = "fr-par-1/vol-1") /\
  (fst out' = [] /\ ResourceData.Id (State.d (snd out')) = "").
Proof.
  intros s down gone out out'. split.
  - split; [reflexivity|].
    exact (proj1 (create_identifier Sim.Meta Sim.instanceAPIWithZone
                    Sim.instanceAPIWithZoneAndID Sim.newRandomName Sim.expandID
                    Sim.ctx0 down s (snd out) (fst out)
                    (Sim.orphaning Sim.unavailable) "fr-par-1" eq_refl
                    (surjective_pairing out)
                    (Sim.createRequest "fr-par-1" (State.d s)) [WithContext Sim.ctx0]
                    (CreateVolumeResponse.mk Sim.blockVolume) (or_introl eq_refl))
                 eq_refl).
  - destruct (proj2 (create_identifier Sim.Meta Sim.instanceAPIWithZone
                       Sim.instanceAPIWithZoneAndID Sim.newRandomName Sim.expandID
                       Sim.ctx0 gone s (snd out') (fst out')
                       (Sim.orphaning Sim.notFound) "fr-par-1" eq_refl
                       (surjective_pairing out')
                       (Sim.createRequest "fr-par-1" (State.d s)) [WithContext Sim.ctx0]
                       (CreateVolumeResponse.mk Sim.blockVolume) (or_introl eq_refl)))
      as [Hkept | (Hid & Hdiags & _)].
    + discriminate Hkept.
    + exact (conj Hdiags Hid).
Defined.

(** 10 GB are created and read back as 10 GB. *)
Lemma create_size_round_trip_witness :
  let s := Sim.fresh Sim.asIs in
  let out := exec (Sim.Create Sim.ctx0 (Sim.provider (Sim.cloud None 0 false))) s in
  ResourceData.GetOkInt Attrs.size_in_gb (State.d s) = (10, true) /\
  Attrs.size_in_gb (ResourceData.planned (State.d (snd out))) = 10.
Proof.
  intros s out. split; [reflexivity|].
  refine (create_size_round_trip Sim.Meta Sim.instanceAPIWithZone
            Sim.instanceAPIWithZoneAndID Sim.newRandomName Sim.expandID Sim.ctx0
            (Sim.provider (Sim.cloud None 0 false)) s (snd out) (fst out)
            (Sim.cloud None 0 false) "fr-par-1" 10
            (Sim.createRequest "fr-par-1" (State.d s))
            [WithContext Sim.ctx0] [WithContext Sim.ctx0] _ _ _
            eq_refl eq_refl _ (surjective_pairing out) eq_refl eq_refl).
  lia.
Defined.

(** A delete that succeeds leaves the identifier in the resource data. *)
Lemma delete_keeps_data_witness :
  let s := Sim.resource Sim.asIs Sim.asIs 3 in
  let out := exec (Sim.Delete Sim.ctx0
                     (Sim.provider (Sim.cloud (Some Sim.blockVolume) 2 false))) s in
  fst out = [] /\ State.d (snd out) = State.d s /\
  ResourceData.Id (State.d (snd out)) = "fr-par-1/vol-1".
Proof.
  intros s out. split; [reflexivity|].
  pose proof (delete_keeps_data Sim.Meta Sim.instanceAPIWithZoneAndID Sim.ctx0
                (Sim.provider (Sim.cloud (Some Sim.blockVolume) 2 false)) s (snd out)
                (fst out) (surjective_pairing out)) as H.
  split; [exact H | rewrite H; reflexivity].
Defined.

(** The delete call of a run that polls twice first. *)
Lemma delete_call_decides_witness :
  let s := Sim.resource Sim.asIs Sim.asIs 3 in
  let api := Sim.cloud (Some Sim.blockVolume) 2 false in
  let out := exec (Sim.Delete Sim.ctx0 (Sim.provider api)) s in
  let request := DeleteVolumeRequest.mk "fr-par-1" "vol-1" in
  In (DeleteVolumeCall request [WithContext Sim.ctx0] None) (calls s (snd out)) /\
  fst out = [] /\
  length (filter isDeleteVolume (calls s (snd out))) = 1%nat.
Proof.
  intros s api out request.
  assert (Hin : In (DeleteVolumeCall request [WithContext Sim.ctx0] None)
                   (calls s (snd out))).
  { right. right. right. left. reflexivity. }
  split; [exact Hin|].
  exact (delete_call_decides Sim.Meta Sim.instanceAPIWithZoneAndID Sim.ctx0
           (Sim.provider api) s (snd out) (fst out) (surjective_pairing out)
           request [WithContext Sim.ctx0] None Hin).
Defined.

(** A delete of a volume that is gone already. *)
Lemma delete_success_witness :
  let s := Sim.resource Sim.asIs Sim.asIs 3 in
  let api := Sim.cloud None 0 false in
  let out := exec (Sim.Delete Sim.ctx0 (Sim.provider api)) s in
  fst out = [] /\
  exists pre,
    (exists fetch err,
        calls s (snd out) = pre ++ [GetVolumeCall fetch [] (Err err)] /\
        is404Error err = true) \/
    (exists req,
        calls s (snd out) = pre ++ [DeleteVolumeCall req [WithContext Sim.ctx0] None]).
Proof.
  intros s api out. split; [reflexivity|].
  exact (delete_success Sim.Meta Sim.instanceAPIWithZoneAndID Sim.ctx0
           (Sim.provider api) s (snd out) (fst out) (surjective_pairing out) eq_refl).
Defined.

(** One poll that shows the volume attached, then the fetch that shows it free. *)
Lemma delete_follows_free_fetch_witness :
  let s := Sim.resource Sim.asIs Sim.asIs 3 in
  let api := Sim.cloud (Some Sim.blockVolume) 1 false in
  let out := exec (Sim.Delete Sim.ctx0 (Sim.provider api)) s in
  let fetch := GetVolumeRequest.mk "fr-par-1" "vol-1" in
  let busy := GetVolumeCall fetch [] (Ok (GetVolumeResponse.mk (Sim.attach true Sim.blockVolume))) in
  exists post,
    calls s (snd out)
      = [busy] ++ GetVolumeCall fetch [] (Ok (GetVolumeResponse.mk Sim.blockVolume)) :: post /\
    exists r,
      post = [DeleteVolumeCall (DeleteVolumeRequest.mk "fr-par-1" "vol-1")
                [WithContext Sim.ctx0] r].
Proof.
  intros s api out fetch busy.
  exists [DeleteVolumeCall (DeleteVolumeRequest.mk "fr-par-1" "vol-1")
            [WithContext Sim.ctx0] None].
  split; [reflexivity|].
  exact (delete_follows_free_fetch Sim.Meta Sim.instanceAPIWithZoneAndID Sim.ctx0
           (Sim.provider api) s (snd out) (fst out) (surjective_pairing out)
           [busy] fetch [] (GetVolumeResponse.mk Sim.blockVolume) _ eq_refl eq_refl).
Defined.

(** A copy of another volume, with no size and no snapshot. *)
Lemma create_request_one_source_witness :
  let d := ResourceData.mk "" (Sim.attrs "" "" 0) (Sim.copyOf "fr-par-1/base") 3 in
  conflictFree Sim.schema d = true /\
  sources (Sim.createRequest "fr-par-1" d) = 1%nat /\
  (sources (Sim.createRequest "fr-par-1" d) <= 1)%nat.
Proof.
  intros d. split; [reflexivity|]. split; [reflexivity|].
  exact (create_request_one_source Sim.Meta Sim.instanceAPIWithZone
           Sim.instanceAPIWithZoneAndID Sim.newRandomName Sim.expandID
           Sim.DefaultWaitRetryInterval Sim.placementSchema Sim.placementSchema
           Sim.placementSchema Sim.StringInSlice (fun _ => true) 3 "fr-par-1" d eq_refl).
Defined.

(** A rename that succeeds, and the read after it. *)
Lemma update_success_witness :
  let s := Sim.resource Sim.asIs (Sim.attrs "backup" "b_ssd" 10) 3 in
  let api := Sim.cloud (Some Sim.blockVolume) 0 false in
  let out := exec (Sim.Update Sim.ctx0 (Sim.provider api)) s in
  fst out = [] /\
  exists pre fetch res,
    calls s (snd out) = pre ++ [GetVolumeCall fetch [WithContext Sim.ctx0] res] /\
    existsb isGetVolume pre = false /\
    match res with
    | Ok got =>
        State.d (snd out)
          = ResourceData.Set_
              (observed (GetVolumeRequest.Zone_ fetch) (GetVolumeResponse.Volume_ got))
              (State.d s)
    | Err err =>
        is404Error err = true /\ State.d (snd out) = ResourceData.SetId "" (State.d s)
    end.
Proof.
  intros s api out. split; [reflexivity|].
  exact (update_success Sim.Meta Sim.instanceAPIWithZoneAndID
           Sim.DefaultWaitRetryInterval Sim.ctx0 (Sim.provider api) s (snd out)
           (fst out) (surjective_pairing out) eq_refl).
Defined.

(** C9 at work, on the run that polls once and then deletes: the two fetches
    carry no request option, and the fetch that shows the volume free is
    followed by the delete call with the context of the caller. *)
Lemma delete_context_threading_witness :
  let s := Sim.resource Sim.asIs Sim.asIs 3 in
  let api := Sim.cloud (Some Sim.blockVolume) 1 false in
  let out := exec (Sim.Delete Sim.ctx0 (Sim.provider api)) s in
  let fetch := GetVolumeRequest.mk "fr-par-1" "vol-1" in
  let busy :=
    GetVolumeCall fetch [] (Ok (GetVolumeResponse.mk (Sim.attach true Sim.blockVolume))) in
  let free := GetVolumeCall fetch [] (Ok (GetVolumeResponse.mk Sim.blockVolume)) in
  let delete :=
    DeleteVolumeCall (DeleteVolumeRequest.mk "fr-par-1" "vol-1")
      [WithContext Sim.ctx0] None in
  calls s (snd out) = [busy; free; delete] /\
  Forall (deleteCallContext Sim.ctx0) (calls s (snd out)) /\
  (exists answer rest, calls s (snd out) = GetVolumeCall fetch [] answer :: rest) /\
  (exists r,
      [delete] = [DeleteVolumeCall (DeleteVolumeRequest.mk "fr-par-1" "vol-1")
                    [WithContext Sim.ctx0] r]).
Proof.
  intros s api out fetch busy free delete.
  pose proof (delete_context_threading Sim.Meta Sim.instanceAPIWithZoneAndID Sim.ctx0
                (Sim.provider api) s (snd out) (fst out) (surjective_pairing out))
    as (Hall & Hfirst & Hfree).
  split; [reflexivity|]. split; [exact Hall|]. split.
  - apply (Hfirst api "fr-par-1" "vol-1" eq_refl). discriminate.
  - exact (proj2 (Hfree [busy] fetch [] (GetVolumeResponse.mk Sim.blockVolume)
                    [delete] eq_refl) eq_refl).
Defined.
